(** * ClientManagementSystem: the record store of [app.py]

    A shallow embedding of the parts of [app.py] that hold the laundry
    service's records: the Excel workbook behind [load_data] and [save_data],
    the pandas frames the pages filter and update, [next_id],
    [calculate_fee], the calendar's day colour and the dashboard's
    month-over-month profit change.

    Python values are kept as the program has them: integers are [Z], floats
    are binary64 (Rocq's primitive floats, whose operations are the IEEE 754
    ones Python uses), strings are [string].  A pandas frame is its list of
    column names and its rows; the row index is left out, since the program
    never reads it (every write passes [index=False], every access is by mask
    or by position). *)

From Stdlib Require Import ZArith Floats Lia Bool Ascii.
From stdpp Require Import gmap strings list pretty.

Local Open Scope Z_scope.

(** ** Python numbers *)

Module Py.

(** An [int] or a [float]. *)
Inductive num :=
  | NInt (z : Z)
  | NFloat (f : float).

(** [float(z)] for an integer: the nearest binary64, ties to even.  (Python
    raises [OverflowError] beyond the float range; the program converts only
    rates, zero and one hundred.) *)
Definition Z2F (z : Z) : float :=
  SF2Prim (binary_normalize prec emax z 0 false).

(** The exact comparison of a float's value with an integer, as Python's
    mixed [int]/[float] comparison does it; [None] for NaN. *)
Definition SFcompareZ (x : spec_float) (z : Z) : option comparison :=
  match x with
  | S754_nan => None
  | S754_infinity s => Some (if s then Lt else Gt)
  | S754_zero _ => Some (0 ?= z)
  | S754_finite s m e =>
      let v := cond_Zopp s (Zpos m) in
      Some (if 0 <=? e then (v * 2 ^ e ?= z) else (v ?= z * 2 ^ (- e)))
  end.

Definition float_compare_Z (f : float) (z : Z) : option comparison :=
  SFcompareZ (Prim2SF f) z.

(** The floats that are [>= 0]: the zeros, the positive finite floats and
    plus infinity. *)
Definition sf_nonneg (x : spec_float) : bool :=
  match x with
  | S754_zero _ => true
  | S754_infinity s | S754_finite s _ _ => negb s
  | S754_nan => false
  end.

(** [a == b] *)
Definition num_eqb (a b : num) : bool :=
  match a, b with
  | NInt x, NInt y => x =? y
  | NFloat f, NFloat g => (f =? g)%float
  | NFloat f, NInt z | NInt z, NFloat f =>
      match float_compare_Z f z with Some Eq => true | _ => false end
  end.

(** [a < b] *)
Definition num_ltb (a b : num) : bool :=
  match a, b with
  | NInt x, NInt y => x <? y
  | NFloat f, NFloat g => (f <? g)%float
  | NFloat f, NInt z =>
      match float_compare_Z f z with Some Lt => true | _ => false end
  | NInt z, NFloat f =>
      match float_compare_Z f z with Some Gt => true | _ => false end
  end.

(** [0 <= a] *)
Definition num_nonneg (a : num) : bool :=
  match a with
  | NInt z => 0 <=? z
  | NFloat f => (0 <=? f)%float
  end.

(** Truth value of a number: zero (of either sign) is false, NaN is true. *)
Definition truthy (a : num) : bool :=
  match a with
  | NInt z => negb (z =? 0)
  | NFloat f => negb (f =? 0)%float
  end.

(** [x or 0], where [None] is Python's [None]. *)
Definition or0 (x : option num) : num :=
  match x with
  | Some a => if truthy a then a else NInt 0
  | None => NInt 0
  end.

Definition num_add (a b : num) : num :=
  match a, b with
  | NInt x, NInt y => NInt (x + y)
  | NInt x, NFloat g => NFloat (Z2F x + g)
  | NFloat f, NInt y => NFloat (f + Z2F y)
  | NFloat f, NFloat g => NFloat (f + g)
  end.

Definition num_sub (a b : num) : num :=
  match a, b with
  | NInt x, NInt y => NInt (x - y)
  | NInt x, NFloat g => NFloat (Z2F x - g)
  | NFloat f, NInt y => NFloat (f - Z2F y)
  | NFloat f, NFloat g => NFloat (f - g)
  end.

Definition num_mul (a b : num) : num :=
  match a, b with
  | NInt x, NInt y => NInt (x * y)
  | NInt x, NFloat g => NFloat (Z2F x * g)
  | NFloat f, NInt y => NFloat (f * Z2F y)
  | NFloat f, NFloat g => NFloat (f * g)
  end.

(** True division of two entries of a numeric column: both operands are
    taken to float64 first. *)
Definition num_div (a b : num) : num :=
  match a, b with
  | NInt x, NInt y => NFloat (Z2F x / Z2F y)
  | NInt x, NFloat g => NFloat (Z2F x / g)
  | NFloat f, NInt y => NFloat (f / Z2F y)
  | NFloat f, NFloat g => NFloat (f / g)
  end.

End Py.

Export Py.

(** ** The fee calculator *)

(** The [rates] dictionary, in insertion order. *)
Definition rates : list (string * Z) :=
  [("WDF", 500); ("WDI", 700); ("Iron Only", 200); ("Bedding", 1200)]%string.

(** [next((v for k, v in rates.items() if service.startswith(k)), 500)] *)
Definition rate_of (service : string) : Z :=
  match List.find (fun kv => String.prefix (fst kv) service) rates with
  | Some kv => snd kv
  | None => 500
  end.

Definition calculate_fee (service : string) (weight delivery : option num) : num :=
  let rate := rate_of service in
  num_add (num_mul (NInt rate) (or0 weight)) (or0 delivery).

(** ** pandas values, series and frames *)

(** What a cell holds: a number (NaN is the float [nan], which is how pandas
    reads an empty cell) or a string. *)
Inductive value :=
  | VNum (n : num)
  | VStr (s : string).

Coercion VNum : num >-> value.
Coercion VStr : string >-> value.

Definition NaN : value := VNum (NFloat nan).

Definition isna (v : value) : bool :=
  match v with
  | VNum (NFloat f) => PrimFloat.is_nan f
  | _ => false
  end.

(** Elementwise [==]: numbers by value, strings by their characters, a
    number never equals a string, NaN equals nothing. *)
Definition value_eqb (a b : value) : bool :=
  match a, b with
  | VNum x, VNum y => num_eqb x y
  | VStr s, VStr t => String.eqb s t
  | _, _ => false
  end.

(** One element of [Series.isin(values)]: as [==], but NaN is in a list that
    holds NaN. *)
Definition isin (a : value) (values : list value) : bool :=
  existsb (fun b => value_eqb a b || (isna a && isna b)) values.

Definition row := gmap string value.

Record DataFrame := {
  columns : list string;
  rows : list row
}.

(** [pd.DataFrame()] *)
Definition empty_frame : DataFrame := {| columns := []; rows := [] |}.

(** [df.empty]: no column or no row. *)
Definition df_empty (df : DataFrame) : bool :=
  match columns df, rows df with
  | [], _ | _, [] => true
  | _, _ => false
  end.

Definition has_column (df : DataFrame) (col : string) : bool :=
  bool_decide (col ∈ columns df).

(** A row's entry under a column; a row that has none reads NaN. *)
Definition cell (r : row) (col : string) : value :=
  default NaN (r !! col).

(** Exceptions the modelled code can raise. *)
Inductive exn :=
  | KeyError
  | IndexError
  | TypeError
  | ValueError
  | OverflowError
  | FileNotFoundError
  | BadZipFile.

Inductive result (A : Type) :=
  | Ok (a : A)
  | Raise (e : exn).

Arguments Ok {A} a.
Arguments Raise {A} e.

#[global] Instance result_ret : MRet result := fun A a => Ok a.
#[global] Instance result_bind : MBind result := fun A B f m =>
  match m with
  | Ok a => f a
  | Raise e => Raise e
  end.

(** [df[col]] *)
Definition getitem (df : DataFrame) (col : string) : result (list value) :=
  if has_column df col then Ok (map (fun r => cell r col) (rows df))
  else Raise KeyError.

(** [df[mask]] for a mask computed row by row. *)
Definition select (mask : row -> bool) (df : DataFrame) : DataFrame :=
  {| columns := columns df; rows := List.filter mask (rows df) |}.

(** [df[df[col] == v]] *)
Definition where_eq (df : DataFrame) (col : string) (v : value) : result DataFrame :=
  if has_column df col
  then Ok (select (fun r => value_eqb (cell r col) v) df)
  else Raise KeyError.

(** [df[df[col] != v]] *)
Definition where_ne (df : DataFrame) (col : string) (v : value) : result DataFrame :=
  if has_column df col
  then Ok (select (fun r => negb (value_eqb (cell r col) v)) df)
  else Raise KeyError.

(** [df[~df[col].isin(values)]] *)
Definition where_not_isin (df : DataFrame) (col : string) (values : list value)
  : result DataFrame :=
  if has_column df col
  then Ok (select (fun r => negb (isin (cell r col) values)) df)
  else Raise KeyError.

(** [s.values[0]] *)
Definition values0 (s : list value) : result value :=
  match s with
  | v :: _ => Ok v
  | [] => Raise IndexError
  end.

(** A column without text in a frame that has rows: pandas holds it as
    [int64] or [float64] (a column of blanks is [float64]). *)
Definition numeric_column (df : DataFrame) (col : string) : bool :=
  match rows df with
  | [] => false
  | _ => forallb (fun r => match cell r col with
                           | VNum _ => true
                           | VStr _ => false
                           end) (rows df)
  end.

(** [df.loc[df[col] == v, target] = x] for a str [x]: the rows under the
    mask get [x] in column [target]; a [target] the frame does not have yet
    is added as its last column.  A column of numbers does not take a str:
    pandas 3 raises [TypeError] and assigns nothing. *)
Definition loc_set (df : DataFrame) (col : string) (v : value) (target : string)
    (x : string) : result DataFrame :=
  if has_column df col
  then if has_column df target && numeric_column df target
       then Raise TypeError
       else Ok {| columns := if has_column df target then columns df
                             else columns df ++ [target];
                  rows := map (fun r => if value_eqb (cell r col) v
                                        then <[target := VStr x]> r else r) (rows df) |}
  else Raise KeyError.

(** [pd.concat([df, pd.DataFrame([new_row])], ignore_index=True)]: the new
    row goes last; keys the frame does not have become new columns, in the
    dictionary's order. *)
Definition concat_row (df : DataFrame) (new_row : list (string * value)) : DataFrame :=
  {| columns := columns df
                ++ List.filter (fun k => negb (has_column df k)) (map fst new_row);
     rows := rows df ++ [list_to_map new_row] |}.

(** [a < b] as [max] asks it of two entries: numbers by value, strings in
    the order of [str] (character by character, by code); a number and a
    string do not compare. *)
Definition value_ltb (a b : value) : result bool :=
  match a, b with
  | VNum x, VNum y => Ok (num_ltb x y)
  | VStr s, VStr t => Ok (String.ltb s t)
  | _, _ => Raise TypeError
  end.

(** [Series.max()]: blank (NaN) entries are skipped, and the result is NaN
    when nothing else is there.  Of numbers it is the largest; of a column
    of text it is the text that comes last in the order of [str] (pandas 3
    keeps such a column, blanks included, as [str]); where text stands
    beside numbers the comparison raises. *)
Fixpoint nanmax (s : list value) (acc : option value) : result value :=
  match s with
  | [] => Ok (default NaN acc)
  | x :: s' =>
      if isna x then nanmax s' acc
      else match acc with
           | None => nanmax s' (Some x)
           | Some m =>
               match value_ltb m x with
               | Ok b => nanmax s' (Some (if b then x else m))
               | Raise e => Raise e
               end
           end
  end.

Definition series_max (s : list value) : result value := nanmax s None.

(** [int(x)] of a number: a float is cut towards zero; NaN and the
    infinities raise. *)
Definition py_int (x : num) : result Z :=
  match x with
  | NInt z => Ok z
  | NFloat f =>
      match Prim2SF f with
      | S754_nan => Raise ValueError
      | S754_infinity _ => Raise OverflowError
      | S754_zero _ => Ok 0
      | S754_finite s m e =>
          Ok (cond_Zopp s (if 0 <=? e then Zpos m * 2 ^ e else Zpos m / 2 ^ (- e)))
      end
  end.

(** The characters [int] skips around a numeral: space, tab, line feed,
    vertical tab, form feed and carriage return. *)
Definition is_space (c : ascii) : bool :=
  let n := nat_of_ascii c in
  ((9 <=? n)%nat && (n <=? 13)%nat) || (n =? 32)%nat.

Definition digit_value (c : ascii) : option Z :=
  let n := nat_of_ascii c in
  if (48 <=? n)%nat && (n <=? 57)%nat then Some (Z.of_nat n - 48) else None.

Fixpoint lstrip (s : string) : string :=
  match s with
  | String c s' => if is_space c then lstrip s' else s
  | EmptyString => s
  end.

Fixpoint all_space (s : string) : bool :=
  match s with
  | String c s' => is_space c && all_space s'
  | EmptyString => true
  end.

(** The digits of a numeral after its first one: digits, each of which may
    have one underscore before it.  The result is the number read so far,
    how many digits it has, and what follows the numeral; an underscore that
    no digit follows is an error. *)
Fixpoint read_digits (s : string) (acc : Z) (n : nat) : option (Z * nat * string) :=
  match s with
  | String c s' =>
      match digit_value c with
      | Some d => read_digits s' (acc * 10 + d) (S n)
      | None =>
          if Ascii.eqb c "_" then
            match s' with
            | String c' s'' =>
                match digit_value c' with
                | Some d => read_digits s'' (acc * 10 + d) (S n)
                | None => None
                end
            | EmptyString => None
            end
          else Some (acc, n, s)
      end
  | EmptyString => Some (acc, n, s)
  end.

(** The most digits [int] reads from a text (the interpreter's
    [int_max_str_digits]). *)
Definition max_str_digits : nat := 4300.

(** [int(s)] of a str: blanks around, a sign, and decimal digits with single
    underscores between them; anything else raises [ValueError].  (A
    character outside ASCII is taken for neither a blank nor a digit.) *)
Definition int_of_str (s : string) : result Z :=
  let s1 := lstrip s in
  let '(neg, s2) := match s1 with
                    | String "-" r => (true, r)
                    | String "+" r => (false, r)
                    | _ => (false, s1)
                    end in
  match s2 with
  | String c s3 =>
      match digit_value c with
      | Some d =>
          match read_digits s3 d 1 with
          | Some (v, n, rest) =>
              if all_space rest && (n <=? max_str_digits)%nat
              then Ok (if neg : bool then - v else v)
              else Raise ValueError
          | None => Raise ValueError
          end
      | None => Raise ValueError
      end
  | EmptyString => Raise ValueError
  end.

(** [int(v)] of an entry of a frame. *)
Definition int_of_value (v : value) : result Z :=
  match v with
  | VNum n => py_int n
  | VStr s => int_of_str s
  end.

(** ** The record store *)

(** [next_id(df, id_col)] *)
Definition next_id (df : DataFrame) (id_col : string) : result Z :=
  if negb (df_empty df) then
    s ← getitem df id_col;
    m ← series_max s;
    i ← int_of_value m;
    mret (i + 1)
  else mret 1.

(** The file [cms_data.xlsx]: not there, there but not a workbook pandas can
    open, or a workbook with its sheets.  A sheet holds the frame that was
    written to it.  How pandas and openpyxl re-type single cells on the way
    through the file is theirs and is not modelled: an empty text is read
    back as a blank, text that is a numeral as a number, a float without a
    fraction as an integer, and blank rows at the end of a sheet are not
    read. *)
Inductive xlsx :=
  | Absent
  | Unreadable
  | Book (sheets : gmap string DataFrame).

(** Code that reads and writes the file and may raise; what was written
    before an exception stays written. *)
Definition M (A : Type) : Type := xlsx -> result A * xlsx.

#[global] Instance M_ret : MRet M := fun A a st => (Ok a, st).
#[global] Instance M_bind : MBind M := fun A B f m st =>
  match m st with
  | (Ok a, st') => f a st'
  | (Raise e, st') => (Raise e, st')
  end.

(** A frame operation inside [M]. *)
Definition lift {A} (r : result A) : M A := fun st => (r, st).

(** The store the run ends with. *)
Definition exec {A} (m : M A) (st : xlsx) : xlsx := snd (m st).

Definition clients_columns : list string :=
  ["client_id"; "full_name"; "phone"; "email"; "address"; "notes"]%string.
Definition orders_columns : list string :=
  ["order_id"; "client_id"; "service_type"; "weight_count"; "pickup_date";
   "due_date"; "status"; "special_instructions"; "delivery_fee"; "total_fee"]%string.
Definition payments_columns : list string :=
  ["payment_id"; "order_id"; "amount_paid"; "payment_date"; "payment_method";
   "payment_status"; "notes"]%string.
Definition costs_columns : list string :=
  ["expense_id"; "date_incurred"; "category"; "description"; "amount";
   "fixed_variable"; "notes"]%string.

Definition blank (cols : list string) : DataFrame :=
  {| columns := cols; rows := [] |}.

(** [init_excel()]: writes the four empty sheets when there is no file. *)
Definition init_excel (st : xlsx) : xlsx :=
  match st with
  | Absent =>
      Book (<["costs"%string := blank costs_columns]>
           (<["payments"%string := blank payments_columns]>
           (<["orders"%string := blank orders_columns]>
           (<["clients"%string := blank clients_columns]> ∅))))
  | _ => st
  end.

(** [pd.read_excel(FILE_PATH, sheet_name=sheet)] inside [try]: any failure
    (no file, no workbook, no such sheet) gives [pd.DataFrame()]. *)
Definition read_sheet (sheet : string) (st : xlsx) : DataFrame :=
  match st with
  | Book sheets => default empty_frame (sheets !! sheet)
  | _ => empty_frame
  end.

Definition load_data (sheet : string) : M DataFrame :=
  fun st => (Ok (read_sheet sheet st), st).

(** [save_data(sheet, df)]: the writer opens the file in append mode, so the
    file must be a workbook already; the sheet is replaced, the other sheets
    stay. *)
Definition save_data (sheet : string) (df : DataFrame) : M unit :=
  fun st =>
    match st with
    | Book sheets => (Ok tt, Book (<[sheet := df]> sheets))
    | Absent => (Raise FileNotFoundError, st)
    | Unreadable => (Raise BadZipFile, st)
    end.

(** [add_row(sheet, new_row)] *)
Definition add_row (sheet : string) (new_row : list (string * value)) : M unit :=
  df ← load_data sheet;
  save_data sheet (concat_row df new_row).

(** ** The pages' handlers

    Each handler is the code a page runs once its button is pressed (and, for
    a deletion, the confirmation box ticked), from the page's own
    [load_data] calls on.  What the select boxes hand over (a client's name,
    an order id, a status) is the handler's argument. *)

(** [df[df["full_name"] == client_to_delete]["client_id"].values[0]]: the
    id of the first client of that name. *)
Definition lookup_client_id (df : DataFrame) (client_to_delete : value) : result value :=
  named ← where_eq df "full_name" client_to_delete;
  ids ← getitem named "client_id";
  values0 ids.

(** Clients page, "Delete Client". *)
Definition delete_client (client_to_delete : value) : M unit :=
  df ← load_data "clients";
  if negb (df_empty df) then
    client_id ← lift (lookup_client_id df client_to_delete);
    df ← lift (where_ne df "client_id" client_id);
    save_data "clients" df;;
    orders ← load_data "orders";
    payments ← load_data "payments";
    if negb (df_empty orders) then
      client_orders ← lift (where_eq orders "client_id" client_id);
      orders ← lift (where_ne orders "client_id" client_id);
      save_data "orders" orders;;
      if negb (df_empty payments) && negb (df_empty client_orders) then
        _ ← lift (getitem payments "order_id");
        order_ids ← lift (getitem client_orders "order_id");
        payments ← lift (where_not_isin payments "order_id" order_ids);
        save_data "payments" payments
      else mret tt
    else mret tt
  else mret tt.

(** Orders page, "Delete Selected Order"; the page shows it only when there
    are orders and clients. *)
Definition delete_order (del_order_id : Z) : M unit :=
  clients ← load_data "clients";
  orders ← load_data "orders";
  if negb (df_empty orders) && negb (df_empty clients) then
    orders ← lift (where_ne orders "order_id" (NInt del_order_id));
    save_data "orders" orders;;
    payments ← load_data "payments";
    payments ← lift (where_ne payments "order_id" (NInt del_order_id));
    save_data "payments" payments
  else mret tt.

(** The choices of the "New Status" select box. *)
Definition status_options : list string :=
  ["Scheduled Pickup"; "Processing"; "Ready"; "Completed"]%string.

(** The entry the select box starts on: the order's current status, or the
    first entry when that is none of the four. *)
Definition status_index (current : value) : nat :=
  match list_find (fun s => value_eqb (VStr s) current = true) status_options with
  | Some (i, _) => i
  | None => 0%nat
  end.

(** Orders page, "Update Status". *)
Definition update_order_status (selected_order_id : Z) (new_status : string) : M unit :=
  clients ← load_data "clients";
  orders ← load_data "orders";
  if negb (df_empty orders) && negb (df_empty clients) then
    orders ← lift (loc_set orders "order_id" (NInt selected_order_id)
                     "status" new_status);
    save_data "orders" orders
  else mret tt.

(** [st.selectbox(label, options, index)]: the option at the position the
    user chose, the one at [index] while the box is as it was drawn. *)
Definition selectbox (options : list string) (index : nat) (ui_value : option nat)
  : result string :=
  match options !! default index ui_value with
  | Some s => Ok s
  | None => Raise IndexError
  end.

(** Orders page, the "New Status" box and the "Update Status" button behind
    it: [current] is the status of the order that was selected, [ui_value]
    what the user did with the box. *)
Definition update_status_page (selected_order_id : Z) (current : value)
    (ui_value : option nat) : M unit :=
  new_status ← lift (selectbox status_options (status_index current) ui_value);
  update_order_status selected_order_id new_status.

(** ** The calendar's day colour *)

Record date := { year : Z; month : Z; day : Z }.

(** [a < b] on dates. *)
Definition date_ltb (a b : date) : bool :=
  (year a <? year b)
  || ((year a =? year b)
      && ((month a <? month b) || ((month a =? month b) && (day a <? day b)))).

Definition green : string := "#4caf50".
Definition yellow : string := "#ffeb3b".
Definition red : string := "#f44336".
Definition blue : string := "#90caf9".
Definition gray : string := "#eceff1".

(** The colour of one day of the month, from the orders due that day. *)
Definition day_color (day_orders : DataFrame) (this_date today : date) : result string :=
  if negb (df_empty day_orders) then
    status ← getitem day_orders "status";
    if forallb (fun v => value_eqb v (VStr "Completed")) status then mret green
    else if existsb (fun v => isin v [VStr "Scheduled Pickup"; VStr "Processing"]) status
    then mret yellow
    else if date_ltb this_date today
            && existsb (fun v => negb (value_eqb v (VStr "Completed"))) status
    then mret red
    else mret blue
  else mret gray.

(** ** The dashboard's profit change *)

(** [s.iloc[-k]] for [k >= 1]. *)
Definition iloc_back (s : list num) (k : nat) : result num :=
  match rev s !! pred k with
  | Some x => Ok x
  | None => Raise IndexError
  end.

(** The dashboard's [this_month_profit] and [profit_change], from the
    [Profit] column of [profit_df] (one entry per month, oldest first). *)
Definition profit_change (profit : list num) : result (num * num) :=
  if (2 <=? length profit)%nat then
    this_month_profit ← iloc_back profit 1;
    last_month_profit ← iloc_back profit 2;
    mret (this_month_profit,
          if negb (num_eqb last_month_profit (NInt 0))
          then num_mul (num_div (num_sub this_month_profit last_month_profit)
                          last_month_profit) (NInt 100)
          else NInt 0)
  else
    this_month_profit ← (if (length profit =? 1)%nat then iloc_back profit 1
                         else mret (NInt 0));
    mret (this_month_profit, NInt 0).

(** ** Vocabulary of the statements *)

(** Row [r] of [df] holds [v] under [col] (no row does when [df] has no such
    column). *)
Definition refers (df : DataFrame) (col : string) (v : value) (r : row) : bool :=
  has_column df col && value_eqb (cell r col) v.

(** Row [r] of [df] holds one of [values] under [col]. *)
Definition refers_any (df : DataFrame) (col : string) (values : list value) (r : row)
  : bool :=
  has_column df col && isin (cell r col) values.

(** The entries of a column, none for a column the frame does not have. *)
Definition column_values (df : DataFrame) (col : string) : list value :=
  match getitem df col with
  | Ok s => s
  | Raise _ => []
  end.

(** The rows of [df] that do not satisfy [p]. *)
Definition without (p : row -> bool) (df : DataFrame) : DataFrame :=
  select (fun r => negb (p r)) df.

(** The rows of [orders'] are the rows of [orders], one for one and in
    their order: a row of order [id] with [s] as its status and nothing else
    changed, every other row as it was. *)
Definition status_set (orders orders' : DataFrame) (id : Z) (s : string) : Prop :=
  Forall2 (fun r r' => r' = if refers orders "order_id" (NInt id) r
                            then <["status"%string := VStr s]> r else r)
          (rows orders) (rows orders').

(** A column of integers. *)
Definition ints (ids : list Z) : list value := map (fun z => VNum (NInt z)) ids.

(** A column of floats, blanks among them. *)
Definition floats (fs : list float) : list value := map (fun f => VNum (NFloat f)) fs.

(** A column of text. *)
Definition texts (ss : list string) : list value := map VStr ss.

(** The order between a float and an integer, compared exactly. *)
Definition float_lt_Z (f : float) (z : Z) : Prop := float_compare_Z f z = Some Lt.
Definition Z_lt_float (z : Z) (f : float) : Prop := float_compare_Z f z = Some Gt.
Definition float_le_Z (f : float) (z : Z) : Prop :=
  float_lt_Z f z \/ float_compare_Z f z = Some Eq.
Definition Z_le_float (z : Z) (f : float) : Prop :=
  Z_lt_float z f \/ float_compare_Z f z = Some Eq.

(** [k] is [f] cut towards zero: [k <= f < k + 1] from zero upwards,
    [k - 1 < f <= k] from zero downwards. *)
Definition truncation (f : float) (k : Z) : Prop :=
  (0 <= k /\ Z_le_float k f /\ float_lt_Z f (k + 1))
  \/ (k <= 0 /\ Z_lt_float (k - 1) f /\ float_le_Z f k).

(** ** Sample records *)

Definition client_row (id : Z) (name : string) : row :=
  list_to_map [("client_id"%string, VNum (NInt id)); ("full_name"%string, VStr name)].

Definition order_row (id client : Z) (service status : string) (total : float) : row :=
  list_to_map [("order_id"%string, VNum (NInt id)); ("client_id"%string, VNum (NInt client));
               ("service_type"%string, VStr service); ("status"%string, VStr status);
               ("total_fee"%string, VNum (NFloat total))].

Definition payment_row (id order : Z) (amount : float) : row :=
  list_to_map [("payment_id"%string, VNum (NInt id)); ("order_id"%string, VNum (NInt order));
               ("amount_paid"%string, VNum (NFloat amount))].

Definition sample_clients : DataFrame :=
  {| columns := clients_columns;
     rows := [client_row 1 "Ama"; client_row 2 "Kofi"] |}.

Definition sample_orders : DataFrame :=
  {| columns := orders_columns;
     rows := [order_row 1 1 "WDF (Wash, Dry, Fold)" "Processing" 5000;
              order_row 2 1 "Bedding" "Ready" 2400;
              order_row 3 2 "WDI (Wash, Dry, Iron)" "Completed" 1400] |}.

Definition sample_payments : DataFrame :=
  {| columns := payments_columns;
     rows := [payment_row 1 1 2000; payment_row 2 1 500; payment_row 3 3 1400] |}.

(** A workbook with two clients; Ama has orders 1 and 2, and order 1 has
    payments 1 and 2. *)
Definition sample_book : xlsx :=
  Book (list_to_map [("clients"%string, sample_clients); ("orders"%string, sample_orders);
                     ("payments"%string, sample_payments);
                     ("costs"%string, blank costs_columns)]).

(** The same workbook before any order was taken: a client, no order, and a
    payment whose order is not there. *)
Definition orphan_book : xlsx :=
  Book (list_to_map [("clients"%string, sample_clients);
                     ("orders"%string, blank orders_columns);
                     ("payments"%string,
                      {| columns := payments_columns; rows := [payment_row 7 9 300] |});
                     ("costs"%string, blank costs_columns)]).

(** Two clients of one name: the first has order 1 with payment 1, the
    second order 2 with payment 2. *)
Definition namesake_book : xlsx :=
  Book (list_to_map
          [("clients"%string,
            {| columns := clients_columns;
               rows := [client_row 1 "Ama"; client_row 2 "Ama"] |});
           ("orders"%string,
            {| columns := orders_columns;
               rows := [order_row 1 1 "WDF (Wash, Dry, Fold)" "Processing" 5000;
                        order_row 2 2 "Bedding" "Ready" 2400] |});
           ("payments"%string,
            {| columns := payments_columns;
               rows := [payment_row 1 1 2000; payment_row 2 2 500] |});
           ("costs"%string, blank costs_columns)]).

(** A workbook whose one order has no status: the status column is there
    and blank. *)
Definition blank_status_book : xlsx :=
  Book (list_to_map
          [("clients"%string,
            {| columns := clients_columns; rows := [client_row 1 "Ama"] |});
           ("orders"%string,
            {| columns := orders_columns;
               rows := [list_to_map [("order_id"%string, VNum (NInt 1));
                                     ("client_id"%string, VNum (NInt 1));
                                     ("service_type"%string, VStr "Bedding");
                                     ("total_fee"%string, VNum (NFloat 2400))]] |});
           ("payments"%string, blank payments_columns);
           ("costs"%string, blank costs_columns)]).

(** An order's status is "Completed". *)
Definition completed (v : value) : Prop := v = VStr "Completed".

(** An order's status is "Scheduled Pickup" or "Processing". *)
Definition in_progress (v : value) : Prop :=
  v = VStr "Scheduled Pickup" \/ v = VStr "Processing".

(** The orders due on a day, by their statuses. *)
Definition due (statuses : list string) : DataFrame :=
  {| columns := orders_columns;
     rows := map (fun s => order_row 1 1 "Bedding" s 2400) statuses |}.

(** ** The order of floats, for the proofs

    [SFcompare] orders the floats that are not NaN as it would order these
    triples, entry by entry. *)
Definition sf_key (x : spec_float) : Z * Z * Z :=
  match x with
  | S754_zero _ | S754_nan => (0, 0, 0)
  | S754_infinity s => (if s then -2 else 2, 0, 0)
  | S754_finite s m e => if s then (-1, - e, - Zpos m) else (1, e, Zpos m)
  end.

Definition lex_lt (a b : Z * Z * Z) : Prop :=
  fst (fst a) < fst (fst b)
  \/ (fst (fst a) = fst (fst b)
      /\ (snd (fst a) < snd (fst b)
          \/ (snd (fst a) = snd (fst b) /\ snd a < snd b))).

(** ** Further handlers and views *)

(** Clients page, "Add Client": the id comes from the frame the page loaded,
    the row is appended to the sheet, and the page reloads the sheet. *)
Definition add_client (name phone email address notes : string) : M unit :=
  df ← load_data "clients";
  cid ← lift (next_id df "client_id");
  add_row "clients" [("client_id"%string, VNum (NInt cid));
                     ("full_name"%string, VStr name);
                     ("phone"%string, VStr phone);
                     ("email"%string, VStr email);
                     ("address"%string, VStr address);
                     ("notes"%string, VStr notes)];;
  _ ← load_data "clients";
  mret tt.

(** Payments page, "Delete Payment"; shown only when there are payments. *)
Definition delete_payment (payment_to_delete : value) : M unit :=
  payments ← load_data "payments";
  if negb (df_empty payments) then
    payments ← lift (where_ne payments "payment_id" payment_to_delete);
    save_data "payments" payments
  else mret tt.

(** [df.loc[df[col] == v, target]] *)
Definition loc_eq (df : DataFrame) (col : string) (v : value) (target : string)
  : result (list value) :=
  if has_column df col then
    if has_column df target
    then Ok (map (fun r => cell r target)
               (List.filter (fun r => value_eqb (cell r col) v) (rows df)))
    else Raise KeyError
  else Raise KeyError.

(** One decimal digit. *)
Definition digit (n : Z) : Ascii.ascii :=
  Ascii.ascii_of_nat (48 + Z.to_nat (n mod 10)).

(** [%m] and [%d]: two digits. *)
Definition pad2 (n : Z) : string :=
  String (digit (n / 10)) (String (digit n) EmptyString).

(** [sql_date(dt)] for a [date]: [dt.strftime("%Y-%m-%d")].  The year is
    written in decimal as it is (the C library does not pad a year below
    1000), month and day with two digits. *)
Definition sql_date (dt : date) : string :=
  (pretty (year dt) ++ "-" ++ pad2 (month dt) ++ "-" ++ pad2 (day dt))%string.

(** A date of the calendar, as far as its fields' ranges go. *)
Definition date_fields (dt : date) : Prop :=
  1 <= year dt <= 9999 /\ 1 <= month dt <= 12 /\ 1 <= day dt <= 31.

(** Orders page, "Add Order".  The form hands over the chosen client's name,
    the service, the weight and the delivery fee (floats, not below 0.0),
    the two dates, the status and the note; the fee is computed as the form
    is drawn.  With no client on file the handler reports an error and
    writes nothing. *)
Definition add_order (client : value) (service : string) (weight : float)
    (pickup due : date) (delivery : float) (status note : string) : M unit :=
  clients ← load_data "clients";
  orders ← load_data "orders";
  let total := calculate_fee service (Some (NFloat weight)) (Some (NFloat delivery)) in
  if df_empty clients then mret tt
  else
    ids ← lift (loc_eq clients "full_name" client "client_id");
    first ← lift (values0 ids);
    cid ← lift (int_of_value first);
    oid ← lift (next_id orders "order_id");
    add_row "orders" [("order_id"%string, VNum (NInt oid));
                      ("client_id"%string, VNum (NInt cid));
                      ("service_type"%string, VStr service);
                      ("weight_count"%string, VNum (NFloat weight));
                      ("pickup_date"%string, VStr (sql_date pickup));
                      ("due_date"%string, VStr (sql_date due));
                      ("status"%string, VStr status);
                      ("special_instructions"%string, VStr note);
                      ("delivery_fee"%string, VNum (NFloat delivery));
                      ("total_fee"%string, VNum total)].

(** Payments page, "Add Cost". *)
Definition add_cost (d : date) (cat desc : string) (amt : float) (fv notes : string)
  : M unit :=
  costs ← load_data "costs";
  eid ← lift (next_id costs "expense_id");
  add_row "costs" [("expense_id"%string, VNum (NInt eid));
                   ("date_incurred"%string, VStr (sql_date d));
                   ("category"%string, VStr cat);
                   ("description"%string, VStr desc);
                   ("amount"%string, VNum (NFloat amt));
                   ("fixed_variable"%string, VStr fv);
                   ("notes"%string, VStr notes)].

(** Overview page: [len(orders[orders["status"] != "Completed"])] and
    [len(orders[orders["status"] == "Completed"])], 0 for an empty frame. *)
Definition pending_orders (orders : DataFrame) : result nat :=
  if negb (df_empty orders) then
    pending ← where_ne orders "status" (VStr "Completed");
    mret (length (rows pending))
  else mret 0%nat.

Definition completed_orders (orders : DataFrame) : result nat :=
  if negb (df_empty orders) then
    done ← where_eq orders "status" (VStr "Completed");
    mret (length (rows done))
  else mret 0%nat.

(** The calendar's month, kept in the session between runs. *)
Record cal_state := { cal_year : Z; cal_month : Z }.

(** One run of the Calendar page: the month the header names, and the state
    after the two buttons and the overflow handling.  The header is drawn
    after the back button and before the forward button is read. *)
Definition navigate (back forward : bool) (s : cal_state) : Z * cal_state :=
  let m1 := if back then cal_month s - 1 else cal_month s in
  let header := m1 in
  let m2 := if forward then m1 + 1 else m1 in
  let s3 := if m2 <? 1 then {| cal_year := cal_year s - 1; cal_month := 12 |}
            else {| cal_year := cal_year s; cal_month := m2 |} in
  let s4 := if 12 <? cal_month s3
            then {| cal_year := cal_year s3 + 1; cal_month := 1 |}
            else s3 in
  (header, s4).

(** ** Vocabulary of the further statements *)

(** Every row of [df] holds an integer under [col], and these are [ids]. *)
Definition int_ids (df : DataFrame) (col : string) (ids : list Z) : Prop :=
  getitem df col = Ok (ints ids).

(** Every row of [child] holds under [col] a value that some row of [parent]
    holds under [key]. *)
Definition references (child : DataFrame) (col : string) (parent : DataFrame)
    (key : string) : Prop :=
  forall r, In r (rows child) ->
            exists p, In p (rows parent)
                      /\ value_eqb (cell r col) (cell p key) = true.

(** * Proofs *)

(** ** Facts about binary64 *)

Section FloatFacts.

Local Open Scope Z_scope.

Lemma shr_1_nonneg mrs : 0 <= shr_m mrs -> 0 <= shr_m (shr_1 mrs).
Proof.
  destruct mrs as [m r s]; simpl.
  destruct m as [|[p|p|]|[p|p|]]; simpl; lia.
Qed.

Lemma iter_shr_1_nonneg p : forall mrs,
  0 <= shr_m mrs -> 0 <= shr_m (SpecFloat.iter_pos shr_1 p mrs).
Proof.
  induction p as [p IH|p IH|]; intros mrs H; simpl.
  - apply IH, IH, shr_1_nonneg, H.
  - apply IH, IH, H.
  - apply shr_1_nonneg, H.
Qed.

Lemma shr_fexp_nonneg m e l :
  0 <= m -> 0 <= shr_m (fst (shr_fexp prec emax m e l)).
Proof.
  intros H. unfold shr_fexp, shr.
  assert (H0 : 0 <= shr_m (shr_record_of_loc m l)) by (destruct l as [|[]]; exact H).
  destruct (fexp prec emax (Zdigits2 m + e) - e) as [|p|p]; simpl; auto.
  apply iter_shr_1_nonneg, H0.
Qed.

Lemma round_nearest_even_nonneg m l : 0 <= m -> 0 <= round_nearest_even m l.
Proof.
  intros H. destruct l as [|[]]; simpl; try lia.
  destruct (Z.even m); lia.
Qed.

(** Rounding keeps the sign it is given and never yields NaN. *)
Lemma binary_round_aux_sign sx m e l :
  0 <= m ->
  match binary_round_aux prec emax sx m e l with
  | S754_nan => False
  | S754_zero s | S754_infinity s | S754_finite s _ _ => s = sx
  end.
Proof.
  intros H. unfold binary_round_aux.
  pose proof (shr_fexp_nonneg m e l H) as H1.
  destruct (shr_fexp prec emax m e l) as [mrs' e']. simpl in H1.
  pose proof (shr_fexp_nonneg _ e' loc_Exact
                (round_nearest_even_nonneg _ (loc_of_shr_record mrs') H1)) as H2.
  destruct (shr_fexp prec emax _ e' loc_Exact) as [mrs'' e'']. simpl in H2.
  destruct (shr_m mrs'') as [|p|p]; try reflexivity.
  - destruct (e'' <=? emax - prec); reflexivity.
  - lia.
Qed.

Lemma binary_round_sign sx mx ex :
  match binary_round prec emax sx mx ex with
  | S754_nan => False
  | S754_zero s | S754_infinity s | S754_finite s _ _ => s = sx
  end.
Proof.
  unfold binary_round. destruct (shl_align _ _ _) as [mz ez].
  apply binary_round_aux_sign. lia.
Qed.

Lemma leb_0_nonneg f : (0 <=? f)%float = true -> sf_nonneg (Prim2SF f) = true.
Proof.
  rewrite leb_spec. change (Prim2SF 0) with (S754_zero false).
  destruct (Prim2SF f) as [s|s| |s m e]; try destruct s; cbv; congruence.
Qed.

Lemma SFmul_nonneg m e y :
  sf_nonneg y = true -> sf_nonneg (SF64mul (S754_finite false m e) y) = true.
Proof.
  destruct y as [s|s| |s m' e']; simpl; try congruence.
  intros Hs. apply negb_true_iff in Hs. subst s.
  pose proof (binary_round_aux_sign (xorb false false) (Zpos (m * m')) (e + e') loc_Exact
                ltac:(lia)) as H.
  unfold SF64mul, SFmul.
  destruct (binary_round_aux _ _ _ _ _ _) as [s|s| |s m2 e2]; simpl in *;
    try subst s; try reflexivity; contradiction.
Qed.

Lemma SFadd_nonneg x y :
  sf_nonneg x = true -> sf_nonneg y = true -> sf_nonneg (SF64add x y) = true.
Proof.
  destruct x as [sx|sx| |sx mx ex], y as [sy|sy| |sy my ey]; simpl;
    try congruence; intros Hx Hy;
    try (apply negb_true_iff in Hx; subst sx);
    try (apply negb_true_iff in Hy; subst sy);
    try reflexivity.
  - destruct sx, sy; reflexivity.
  - unfold SF64add, SFadd, cond_Zopp.
    set (a := fst (shl_align mx ex (Z.min ex ey))).
    set (b := fst (shl_align my ey (Z.min ex ey))).
    change (Z.pos a + Z.pos b) with (Z.pos (a + b)). unfold binary_normalize.
    pose proof (binary_round_sign false (a + b) (Z.min ex ey)) as H.
    destruct (binary_round _ _ _ _ _) as [s|s| |s m2 e2]; simpl in *;
      try subst s; try reflexivity; contradiction.
Qed.

Lemma SFeqb_refl x : sf_nonneg x = true -> SFeqb x x = true.
Proof.
  destruct x as [s|s| |s m e]; simpl; try congruence; intros Hs.
  - reflexivity.
  - destruct s; reflexivity.
  - unfold SFeqb, SFcompare. apply negb_true_iff in Hs. subst s.
    rewrite Z.compare_refl, Pos.compare_cont_refl. reflexivity.
Qed.

Lemma SFeqb_nan_r x : SFeqb x S754_nan = false.
Proof. destruct x as [s|s| |s m e]; reflexivity. Qed.

Lemma SFeqb_refl_all x : x <> S754_nan -> SFeqb x x = true.
Proof.
  destruct x as [s|s| |s m e]; try congruence; intros _.
  - reflexivity.
  - destruct s; reflexivity.
  - unfold SFeqb, SFcompare. rewrite Z.compare_refl, Pos.compare_cont_refl.
    destruct s; reflexivity.
Qed.

Lemma is_nan_spec f : PrimFloat.is_nan f = true -> Prim2SF f = S754_nan.
Proof.
  unfold PrimFloat.is_nan. rewrite FloatAxioms.eqb_spec. intros H%negb_true_iff.
  destruct (Prim2SF f) as [s|s| |s m e] eqn:E; [| |reflexivity|];
    rewrite SFeqb_refl_all in H by discriminate; discriminate.
Qed.

End FloatFacts.

(** ** The fee calculator *)

Section Fee.

Local Open Scope Z_scope.

Lemma prefix_cons a p s :
  String.prefix (String a p) s = true ->
  exists s', s = String a s' /\ String.prefix p s' = true.
Proof.
  destruct s as [|b s']; simpl; [discriminate|].
  destruct (Ascii.ascii_dec a b) as [->|]; [|discriminate]. eauto.
Qed.

Lemma rate_of_cases s :
  rate_of s = 500 \/ rate_of s = 700 \/ rate_of s = 200 \/ rate_of s = 1200.
Proof.
  unfold rate_of, rates. simpl.
  repeat match goal with
         | |- context [if ?c then _ else _] => destruct c; simpl
         end; auto.
Qed.

Lemma Z2F_rate s : exists m e, Prim2SF (Z2F (rate_of s)) = S754_finite false m e.
Proof.
  destruct (rate_of_cases s) as [->|[->|[->| ->]]]; vm_compute; eauto.
Qed.

Lemma SFeqb_zero_true x :
  SFeqb x (S754_zero false) = true -> exists s, x = S754_zero s.
Proof.
  destruct x as [s|s| |s m e]; try destruct s; cbv; try discriminate; eauto.
Qed.

Lemma SFeqb_zero_false x :
  sf_nonneg x = true -> SFeqb x (S754_zero false) = false ->
  x = S754_infinity false \/ exists m e, x = S754_finite false m e.
Proof.
  destruct x as [s|s| |s m e]; try destruct s; cbv; try discriminate; eauto.
Qed.

Lemma fee_float s (w d : float) :
  (0 <=? w)%float = true -> (0 <=? d)%float = true ->
  num_eqb (calculate_fee s (Some (NFloat w)) (Some (NFloat d)))
          (NFloat (Z2F (rate_of s) * w + d)) = true.
Proof.
  intros Hw Hd. apply leb_0_nonneg in Hw, Hd.
  destruct (Z2F_rate s) as (m & e & HR).
  pose proof (SFmul_nonneg m e _ Hw) as HX.
  pose proof (SFadd_nonneg _ _ HX Hd) as HY.
  unfold calculate_fee, or0, truthy.
  rewrite !FloatAxioms.eqb_spec. change (Prim2SF 0) with (S754_zero false).
  destruct (SFeqb (Prim2SF w) (S754_zero false)) eqn:Ew,
           (SFeqb (Prim2SF d) (S754_zero false)) eqn:Ed; simpl.
  - (* both zero: the code answers the integer 0 *)
    apply SFeqb_zero_true in Ew as [sw Ew], Ed as [sd Ed].
    unfold float_compare_Z. rewrite add_spec, mul_spec, HR, Ew, Ed.
    rewrite Z.mul_0_r. destruct sw, sd; reflexivity.
  - (* no weight *)
    apply SFeqb_zero_true in Ew as [sw Ew].
    rewrite Z.mul_0_r, FloatAxioms.eqb_spec, !add_spec, mul_spec, HR, Ew.
    change (Prim2SF (Z2F 0)) with (S754_zero false).
    apply (SFeqb_zero_false _ Hd) in Ed as [Ed|(m' & e' & Ed)]; rewrite Ed;
      simpl; [reflexivity|].
    apply (SFeqb_refl (S754_finite false m' e')). reflexivity.
  - (* no delivery fee *)
    apply SFeqb_zero_true in Ed as [sd Ed].
    rewrite FloatAxioms.eqb_spec, !add_spec, mul_spec, HR, Ed.
    change (Prim2SF (Z2F 0)) with (S754_zero false).
    destruct (SF64mul (S754_finite false m e) (Prim2SF w)) as [sx|sx| |sx m' e'];
      simpl in HX; try discriminate.
    + destruct sx, sd; reflexivity.
    + apply negb_true_iff in HX. subst sx. reflexivity.
    + apply negb_true_iff in HX. subst sx.
      apply (SFeqb_refl (S754_finite false m' e')). reflexivity.
  - rewrite FloatAxioms.eqb_spec. apply SFeqb_refl.
    rewrite add_spec, mul_spec, HR. exact HY.
Qed.

Lemma fee_int s (w d : Z) :
  calculate_fee s (Some (NInt w)) (Some (NInt d)) = NInt (rate_of s * w + d).
Proof.
  unfold calculate_fee, or0, truthy.
  destruct (Z.eqb_spec w 0) as [->|], (Z.eqb_spec d 0) as [->|]; simpl; reflexivity.
Qed.

Lemma rate_of_none s :
  String.prefix "WDF" s = false -> String.prefix "WDI" s = false ->
  String.prefix "Iron Only" s = false -> String.prefix "Bedding" s = false ->
  rate_of s = 500.
Proof.
  intros H1 H2 H3 H4. unfold rate_of, rates. cbn [List.find fst snd].
  rewrite H1, H2, H3, H4. reflexivity.
Qed.

Ltac strip_prefix H :=
  repeat (apply prefix_cons in H as (? & -> & H)).

Lemma rate_of_table s :
  (String.prefix "WDF" s = true -> rate_of s = 500)
  /\ (String.prefix "WDI" s = true -> rate_of s = 700)
  /\ (String.prefix "Iron Only" s = true -> rate_of s = 200)
  /\ (String.prefix "Bedding" s = true -> rate_of s = 1200).
Proof.
  repeat split; intros H; strip_prefix H;
    unfold rate_of, rates; cbn; rewrite H; reflexivity.
Qed.

End Fee.

(** C2.  The fee is [rate * weight + delivery].  The rate is read off the
    service's prefix: 500 for "WDF", 700 for "WDI", 200 for "Iron Only", 1200
    for "Bedding", and 500 for a service with none of these prefixes.  For
    weights and delivery fees [>= 0] the result equals (Python's [==])
    [rate * w + d], in floats, which is what the order form passes, and in
    integers; a weight or delivery fee that is [None] counts as 0. *)
Theorem calculate_fee_spec (service : string) :
  (String.prefix "WDF" service = true -> rate_of service = 500)
  /\ (String.prefix "WDI" service = true -> rate_of service = 700)
  /\ (String.prefix "Iron Only" service = true -> rate_of service = 200)
  /\ (String.prefix "Bedding" service = true -> rate_of service = 1200)
  /\ (String.prefix "WDF" service = false -> String.prefix "WDI" service = false ->
      String.prefix "Iron Only" service = false ->
      String.prefix "Bedding" service = false -> rate_of service = 500)
  /\ (forall w d : float,
        (0 <=? w)%float = true -> (0 <=? d)%float = true ->
        num_eqb (calculate_fee service (Some (NFloat w)) (Some (NFloat d)))
                (NFloat (Z2F (rate_of service) * w + d)) = true)
  /\ (forall w d : Z,
        0 <= w -> 0 <= d ->
        calculate_fee service (Some (NInt w)) (Some (NInt d))
        = NInt (rate_of service * w + d))
  /\ (forall d, calculate_fee service None d = calculate_fee service (Some (NInt 0)) d)
  /\ (forall w, calculate_fee service w None = calculate_fee service w (Some (NInt 0))).
Proof.
  destruct (rate_of_table service) as (H1 & H2 & H3 & H4).
  repeat split; auto using rate_of_none, fee_float, fee_int.
Qed.

Lemma calculate_fee_spec_witness :
  rate_of "WDI (Wash, Dry, Iron)" = 700
  /\ num_eqb (calculate_fee "WDI (Wash, Dry, Iron)" (Some (NFloat 2.5)) (Some (NFloat 100)))
             (NFloat (Z2F 700 * 2.5 + 100)) = true
  /\ calculate_fee "Curtains" (Some (NInt 3)) (Some (NInt 40)) = NInt (500 * 3 + 40).
Proof.
  destruct (calculate_fee_spec "WDI (Wash, Dry, Iron)") as (_ & H2 & _ & _ & _ & Hf & _).
  destruct (calculate_fee_spec "Curtains") as (_ & _ & _ & _ & H5 & _ & Hi & _).
  split; [apply H2; reflexivity|]. split.
  - rewrite <- (H2 eq_refl). apply Hf; reflexivity.
  - rewrite <- (H5 eq_refl eq_refl eq_refl eq_refl). apply Hi; lia.
Defined.

Example calculate_fee_wdf_10 :
  calculate_fee "WDF (Wash, Dry, Fold)" (Some (NFloat 10)) (Some (NFloat 0)) = NFloat 5000.
Proof. vm_compute. reflexivity. Qed.

Example calculate_fee_bedding :
  calculate_fee "Bedding" (Some (NFloat 1.5)) (Some (NFloat 250)) = NFloat 2050.
Proof. vm_compute. reflexivity. Qed.

(** ** Ids *)

Section NextId.

Local Open Scope Z_scope.

Lemma nanmax_ints ids a :
  nanmax (ints ids) (Some (VNum (NInt a)))
  = Ok (VNum (NInt (fold_left Z.max ids a))).
Proof.
  revert a. induction ids as [|z ids IH]; intros a; simpl; [reflexivity|].
  destruct (Z.ltb_spec a z).
  - rewrite IH, Z.max_r by lia. reflexivity.
  - rewrite IH, Z.max_l by lia. reflexivity.
Qed.

Lemma fold_max_ge ids : forall a,
  a <= fold_left Z.max ids a /\ Forall (fun z => z <= fold_left Z.max ids a) ids.
Proof.
  induction ids as [|z ids IH]; intros a; simpl.
  - split; [lia|constructor].
  - destruct (IH (Z.max a z)) as [H1 H2]. split; [lia|].
    constructor; [lia|exact H2].
Qed.

Lemma fold_max_in ids : forall a,
  fold_left Z.max ids a = a \/ In (fold_left Z.max ids a) ids.
Proof.
  induction ids as [|z ids IH]; intros a; simpl; [auto|].
  destruct (IH (Z.max a z)) as [H|H]; [|auto].
  rewrite H. destruct (Z.max_spec a z) as [[_ ->]|[_ ->]]; auto.
Qed.

(** The largest of a non-empty column of integers. *)
Lemma series_max_ints z ids :
  exists m, series_max (ints (z :: ids)) = Ok (VNum (NInt m))
            /\ In m (z :: ids) /\ Forall (fun i => i <= m) (z :: ids).
Proof.
  exists (fold_left Z.max ids z). unfold series_max. simpl.
  rewrite nanmax_ints.
  destruct (fold_max_ge ids z) as [H1 H2].
  destruct (fold_max_in ids z) as [H|H]; repeat split; auto.
Qed.

(** *** The largest entry, for any kind of entry [max] can order *)

Section Largest.

Variable P : value -> Prop.
Hypothesis P_not_na : forall a, P a -> isna a = false.
Hypothesis P_compares : forall a b, P a -> P b -> exists c, value_ltb a b = Ok c.
Hypothesis P_irrefl : forall a, P a -> value_ltb a a = Ok false.
Hypothesis P_trans : forall a b c, P a -> P b -> P c ->
  value_ltb a b = Ok true -> value_ltb b c = Ok true -> value_ltb a c = Ok true.
Hypothesis P_ge_trans : forall a b c, P a -> P b -> P c ->
  value_ltb a b = Ok false -> value_ltb b c = Ok false -> value_ltb a c = Ok false.

Lemma nanmax_largest s : forall acc,
  Forall (fun v => isna v = true \/ P v) s -> P acc ->
  exists m, nanmax s (Some acc) = Ok m /\ P m /\ (m = acc \/ In m s)
            /\ value_ltb m acc = Ok false
            /\ (forall v, In v s -> P v -> value_ltb m v = Ok false).
Proof.
  induction s as [|v s IH]; intros acc Hs Hacc.
  - exists acc. repeat split; auto. intros v [].
  - inversion Hs as [|? ? Hv Hs']; subst. cbn [nanmax].
    destruct Hv as [Hv|Hv].
    + rewrite Hv. destruct (IH acc Hs' Hacc) as (m & Hm & HP & Hin & Hge & Hall).
      exists m. repeat split; auto.
      * destruct Hin; [left|right; right]; assumption.
      * intros w [<-|Hw] Hw'; [|auto].
        rewrite (P_not_na _ Hw') in Hv. discriminate.
    + rewrite (P_not_na _ Hv).
      destruct (P_compares acc v Hacc Hv) as [c Hc]. rewrite Hc.
      destruct c.
      * destruct (IH v Hs' Hv) as (m & Hm & HP & Hin & Hge & Hall).
        exists m. repeat split; auto.
        -- destruct Hin as [->|Hin]; right; [left; reflexivity|right; exact Hin].
        -- destruct (P_compares m acc HP Hacc) as [[] Hc']; [|exact Hc'].
           rewrite (P_trans m acc v HP Hacc Hv Hc' Hc) in Hge. discriminate.
        -- intros w [<-|Hw] Hw'; auto.
      * destruct (IH acc Hs' Hacc) as (m & Hm & HP & Hin & Hge & Hall).
        exists m. repeat split; auto.
        -- destruct Hin; [left|right; right]; assumption.
        -- intros w [<-|Hw] Hw'; [|auto].
           exact (P_ge_trans m acc v HP Hacc Hw' Hge Hc).
Qed.

Lemma series_max_largest s :
  Forall (fun v => isna v = true \/ P v) s -> Exists P s ->
  exists m, series_max s = Ok m /\ P m /\ In m s
            /\ (forall v, In v s -> P v -> value_ltb m v = Ok false).
Proof.
  unfold series_max. induction s as [|v s IH]; intros Hs He.
  - inversion He.
  - inversion Hs as [|? ? Hv Hs']; subst. cbn [nanmax].
    destruct (isna v) eqn:Hna.
    + assert (He' : Exists P s).
      { inversion He as [? ? Hp|]; subst; [|assumption].
        rewrite (P_not_na _ Hp) in Hna. discriminate. }
      destruct (IH Hs' He') as (m & Hm & HP & Hin & Hall).
      exists m. repeat split; auto.
      * right. exact Hin.
      * intros w [<-|Hw] Hw'; [|auto].
        rewrite (P_not_na _ Hw') in Hna. discriminate.
    + destruct Hv as [Hv|Hv]; [congruence|].
      destruct (nanmax_largest s v Hs' Hv) as (m & Hm & HP & Hin & Hge & Hall).
      exists m. repeat split; auto.
      * destruct Hin as [->|Hin]; [left; reflexivity|right; exact Hin].
      * intros w [<-|Hw] Hw'; auto.
Qed.

End Largest.

(** *** A column of floats *)

Lemma SFltb_key x y :
  x <> S754_nan -> y <> S754_nan ->
  (SFltb x y = true <-> lex_lt (sf_key x) (sf_key y)).
Proof.
  intros Hx Hy. unfold SFltb, lex_lt.
  destruct x as [sx|sx| |sx mx ex], y as [sy|sy| |sy my ey]; try congruence;
    cbn [SFcompare sf_key];
    try (destruct sx); try (destruct sy); cbn [fst snd];
    try (split; intros H; first [discriminate H | reflexivity | lia]).
  - destruct (Z.compare_spec ex ey);
      [rewrite Pos.compare_cont_spec; cbn [Pos.switch_Eq];
       destruct (Pos.compare_spec mx my)|..];
      cbn [CompOpp]; split; intros H'; first [discriminate H' | reflexivity | lia].
  - destruct (Z.compare_spec ex ey);
      [rewrite Pos.compare_cont_spec; cbn [Pos.switch_Eq];
       destruct (Pos.compare_spec mx my)|..];
      cbn [CompOpp]; split; intros H'; first [discriminate H' | reflexivity | lia].
Qed.

Lemma is_nan_false f : PrimFloat.is_nan f = false -> Prim2SF f <> S754_nan.
Proof.
  unfold PrimFloat.is_nan. rewrite FloatAxioms.eqb_spec. intros H%negb_false_iff E.
  rewrite E in H. discriminate.
Qed.

Lemma ltb_nan_r f g : PrimFloat.is_nan g = true -> (f <? g)%float = false.
Proof.
  intros Hg%is_nan_spec. rewrite FloatAxioms.ltb_spec, Hg.
  destruct (Prim2SF f); reflexivity.
Qed.

Lemma ltb_key f g :
  PrimFloat.is_nan f = false -> PrimFloat.is_nan g = false ->
  ((f <? g)%float = true <-> lex_lt (sf_key (Prim2SF f)) (sf_key (Prim2SF g))).
Proof.
  intros Hf%is_nan_false Hg%is_nan_false. rewrite FloatAxioms.ltb_spec.
  apply SFltb_key; assumption.
Qed.

Lemma ltb_false_key f g :
  PrimFloat.is_nan f = false -> PrimFloat.is_nan g = false ->
  ((f <? g)%float = false <-> ~ lex_lt (sf_key (Prim2SF f)) (sf_key (Prim2SF g))).
Proof.
  intros Hf Hg. rewrite <- (ltb_key f g Hf Hg).
  destruct (f <? g)%float; split; congruence.
Qed.

Ltac by_keys :=
  repeat match goal with
         | H : (_ <? _)%float = true |- _ => apply ltb_key in H; [|assumption..]
         | H : (_ <? _)%float = false |- _ => apply ltb_false_key in H; [|assumption..]
         | |- (_ <? _)%float = true => apply ltb_key; [assumption..|]
         | |- (_ <? _)%float = false => apply ltb_false_key; [assumption..|]
         end;
  unfold lex_lt in *;
  repeat match goal with
         | |- context [sf_key ?x] => destruct (sf_key x) as [[? ?] ?]
         | H : context [sf_key ?x] |- _ => destruct (sf_key x) as [[? ?] ?]
         end;
  cbn [fst snd] in *; lia.

Lemma series_max_floats fs :
  Exists (fun f => PrimFloat.is_nan f = false) fs ->
  exists m, series_max (floats fs) = Ok (VNum (NFloat m))
            /\ In m fs /\ PrimFloat.is_nan m = false
            /\ Forall (fun f => (m <? f)%float = false) fs.
Proof.
  intros He.
  destruct (series_max_largest
              (fun v => exists f, v = VNum (NFloat f) /\ PrimFloat.is_nan f = false))
    with (s := floats fs)
    as (m & Hm & (m0 & -> & Hnan) & Hin & Hall).
  - intros a (f & -> & Hf). exact Hf.
  - intros a b (f & -> & Hf) (g & -> & Hg). eexists. reflexivity.
  - intros a (f & -> & Hf). cbn [value_ltb num_ltb]. f_equal. by_keys.
  - intros a b c (f & -> & Hf) (g & -> & Hg) (h & -> & Hh).
    cbn [value_ltb num_ltb]. intros [= H1] [= H2]. f_equal. by_keys.
  - intros a b c (f & -> & Hf) (g & -> & Hg) (h & -> & Hh).
    cbn [value_ltb num_ltb]. intros [= H1] [= H2]. f_equal. by_keys.
  - unfold floats. apply List.Forall_forall. intros v (f & <- & Hf)%in_map_iff.
    destruct (PrimFloat.is_nan f) eqn:E; [left; exact E|right].
    exists f. auto.
  - unfold floats. apply List.Exists_exists in He as (f & Hf & Hn).
    apply List.Exists_exists. exists (VNum (NFloat f)). split.
    + apply in_map_iff. eauto.
    + exists f. auto.
  - exists m0. split; [exact Hm|].
    assert (Hin0 : In m0 fs).
    { unfold floats in Hin. apply in_map_iff in Hin as (f & [= ->] & Hf). exact Hf. }
    repeat split; auto.
    apply List.Forall_forall. intros f Hf.
    destruct (PrimFloat.is_nan f) eqn:E; [apply ltb_nan_r, E|].
    assert (H : value_ltb (VNum (NFloat m0)) (VNum (NFloat f)) = Ok false).
    { apply Hall; [apply in_map_iff; eauto|exists f; auto]. }
    cbn [value_ltb num_ltb] in H. congruence.
Qed.

(** [int(f)] is [f] cut towards zero. *)
Lemma py_int_truncation f k : py_int (NFloat f) = Ok k -> truncation f k.
Proof.
  unfold py_int, truncation, Z_le_float, Z_lt_float, float_le_Z, float_lt_Z,
    float_compare_Z.
  destruct (Prim2SF f) as [s|s| |s m e]; try discriminate; intros [= <-];
    unfold SFcompareZ.
  - left. repeat split; auto. lia.
  - destruct (Z.leb_spec 0 e) as [He|He].
    + assert (Hp : 0 < 2 ^ e) by (apply Z.pow_pos_nonneg; lia).
      destruct s; unfold cond_Zopp; [right|left]; repeat split; try nia.
      * f_equal. apply Z.compare_gt_iff. nia.
      * right. f_equal. apply Z.compare_eq_iff. nia.
      * right. f_equal. apply Z.compare_eq_iff. nia.
      * f_equal. apply Z.compare_lt_iff. nia.
    + assert (Hp : 0 < 2 ^ (- e)) by (apply Z.pow_pos_nonneg; lia).
      pose proof (Z.mul_div_le (Z.pos m) _ Hp) as H1.
      pose proof (Z.mul_succ_div_gt (Z.pos m) _ Hp) as H2.
      assert (H0 : 0 <= Z.pos m / 2 ^ (- e)) by (apply Z.div_pos; lia).
      destruct s; unfold cond_Zopp; [right|left]; repeat split; try lia.
      * f_equal. apply Z.compare_gt_iff. nia.
      * destruct (Z.compare_spec (- Z.pos m) (- (Z.pos m / 2 ^ (- e)) * 2 ^ (- e)));
          [right; reflexivity|left; reflexivity|nia].
      * destruct (Z.compare_spec (Z.pos m) (Z.pos m / 2 ^ (- e) * 2 ^ (- e)));
          [right; reflexivity|nia|left; reflexivity].
      * f_equal. apply Z.compare_lt_iff. nia.
Qed.

Lemma Prim2SF_infinity : Prim2SF infinity = S754_infinity false.
Proof. reflexivity. Qed.

(** [int] converts every float but NaN and the infinities. *)
Lemma py_int_finite f :
  PrimFloat.is_nan f = false -> PrimFloat.is_infinity f = false ->
  exists k, py_int (NFloat f) = Ok k.
Proof.
  intros Hn%is_nan_false Hi. unfold py_int.
  destruct (Prim2SF f) as [s|s| |s m e] eqn:E; eauto; [|congruence].
  exfalso. unfold PrimFloat.is_infinity in Hi.
  rewrite FloatAxioms.eqb_spec, FloatAxioms.abs_spec, E, Prim2SF_infinity in Hi.
  discriminate.
Qed.

(** *** A column of text *)

Lemma ascii_compare_lt_trans a b c :
  Ascii.compare a b = Lt -> Ascii.compare b c = Lt -> Ascii.compare a c = Lt.
Proof.
  unfold Ascii.compare. rewrite !N.compare_lt_iff. lia.
Qed.

Lemma string_compare_lt_trans a : forall b c,
  String.compare a b = Lt -> String.compare b c = Lt -> String.compare a c = Lt.
Proof.
  induction a as [|x a IH]; intros [|y b] [|z c]; cbn [String.compare];
    try discriminate; auto.
  destruct (Ascii.compare x y) eqn:Exy; try discriminate;
    destruct (Ascii.compare y z) eqn:Eyz; try discriminate; intros H1 H2.
  - apply Ascii.compare_eq_iff in Exy, Eyz. subst.
    assert (Ascii.compare z z = Eq) as ->
      by (unfold Ascii.compare; apply N.compare_refl).
    eapply IH; eassumption.
  - apply Ascii.compare_eq_iff in Exy. subst. rewrite Eyz. reflexivity.
  - apply Ascii.compare_eq_iff in Eyz. subst. rewrite Exy. reflexivity.
  - rewrite (ascii_compare_lt_trans _ _ _ Exy Eyz). reflexivity.
Qed.

Lemma string_ltb_irrefl a : String.ltb a a = false.
Proof.
  unfold String.ltb. pose proof (String.compare_antisym a a) as H.
  destruct (String.compare a a); try reflexivity; discriminate.
Qed.

Lemma string_ltb_trans a b c :
  String.ltb a b = true -> String.ltb b c = true -> String.ltb a c = true.
Proof.
  unfold String.ltb.
  destruct (String.compare a b) eqn:E1; try discriminate.
  destruct (String.compare b c) eqn:E2; try discriminate.
  rewrite (string_compare_lt_trans _ _ _ E1 E2). reflexivity.
Qed.

Lemma string_ltb_ge_trans a b c :
  String.ltb a b = false -> String.ltb b c = false -> String.ltb a c = false.
Proof.
  unfold String.ltb. intros H1 H2.
  destruct (String.compare a c) eqn:E; try reflexivity. exfalso.
  destruct (String.compare a b) eqn:E1; try discriminate.
  { apply String.compare_eq_iff in E1. subst. rewrite E in H2. discriminate. }
  destruct (String.compare b c) eqn:E2; try discriminate.
  { apply String.compare_eq_iff in E2. subst. congruence. }
  rewrite String.compare_antisym in E1, E2.
  apply CompOpp_iff in E1, E2. cbn [CompOpp] in E1, E2.
  pose proof (string_compare_lt_trans _ _ _ E2 E1) as H.
  rewrite String.compare_antisym, E in H. discriminate.
Qed.

Lemma series_max_texts ss :
  ss <> [] ->
  exists m, series_max (texts ss) = Ok (VStr m) /\ In m ss
            /\ Forall (fun s => String.ltb m s = false) ss.
Proof.
  intros Hne.
  destruct (series_max_largest (fun v => exists s, v = VStr s)) with (s := texts ss)
    as (m & Hm & (m0 & ->) & Hin & Hall).
  - intros a (s & ->). reflexivity.
  - intros a b (s & ->) (t & ->). eexists. reflexivity.
  - intros a (s & ->). cbn [value_ltb]. f_equal. apply string_ltb_irrefl.
  - intros a b c (s & ->) (t & ->) (u & ->). cbn [value_ltb].
    intros [= H1] [= H2]. f_equal. eapply string_ltb_trans; eassumption.
  - intros a b c (s & ->) (t & ->) (u & ->). cbn [value_ltb].
    intros [= H1] [= H2]. f_equal. eapply string_ltb_ge_trans; eassumption.
  - unfold texts. apply List.Forall_forall. intros v (s & <- & Hs)%in_map_iff.
    right. eauto.
  - destruct ss as [|s ss]; [congruence|]. left. eauto.
  - exists m0. split; [exact Hm|].
    unfold texts in Hin. apply in_map_iff in Hin as (s & [= ->] & Hs).
    split; [exact Hs|]. apply List.Forall_forall. intros t Ht.
    assert (H : value_ltb (VStr m0) (VStr t) = Ok false).
    { apply Hall; [apply in_map_iff; eauto|eauto]. }
    cbn [value_ltb] in H. congruence.
Qed.

(** *** Reading a numeral *)

Lemma digit_cases (d : N) :
  (d < 10)%N ->
  (d = 0 \/ d = 1 \/ d = 2 \/ d = 3 \/ d = 4 \/ d = 5 \/ d = 6 \/ d = 7 \/ d = 8
   \/ d = 9)%N.
Proof. lia. Qed.

Lemma digit_value_pretty d :
  (d < 10)%N -> digit_value (pretty_N_char d) = Some (Z.of_N d).
Proof.
  intros H%digit_cases. repeat destruct H as [->|H]; try subst d; reflexivity.
Qed.

(** The digits [pretty_N_go] puts before a text are read as the number they
    write. *)
Lemma read_digits_pretty x :
  exists l : nat, forall s acc n,
    read_digits (pretty_N_go x s) acc n
    = read_digits s (acc * 10 ^ Z.of_nat l + Z.of_N x) (n + l)
    /\ String.length (pretty_N_go x s) = (l + String.length s)%nat.
Proof.
  induction (N.lt_wf_0 x) as [x _ IH].
  destruct (N.eq_dec x 0%N) as [->|Hx].
  - exists 0%nat. intros s acc n. rewrite pretty_N_go_0. split; [|reflexivity].
    f_equal; [cbn; lia|lia].
  - assert (H0 : (0 < x)%N) by lia.
    destruct (IH (x / 10)%N) as (l & Hl); [apply N.div_lt; lia|].
    exists (S l). intros s acc n. rewrite pretty_N_go_step by exact H0.
    destruct (Hl (String (pretty_N_char (x mod 10)) s) acc n) as [Hr Hlen].
    rewrite Hr, Hlen. cbn [read_digits String.length].
    rewrite digit_value_pretty by (apply N.mod_lt; lia).
    split; [|lia]. f_equal; [|lia].
    rewrite Nat2Z.inj_succ, Z.pow_succ_r by lia.
    rewrite (N.div_mod x 10%N) at 3 by lia.
    rewrite N2Z.inj_add, N2Z.inj_mul. change (Z.of_N 10) with 10. lia.
Qed.

Lemma pretty_N_go_head x : forall s,
  (0 < x)%N ->
  exists d r, (d < 10)%N /\ pretty_N_go x s = String (pretty_N_char d) r.
Proof.
  induction (N.lt_wf_0 x) as [x _ IH]. intros s H0.
  rewrite pretty_N_go_step by exact H0.
  destruct (N.eq_dec (x / 10)%N 0%N) as [E|E].
  - rewrite E, pretty_N_go_0. exists (x mod 10)%N. eexists.
    split; [apply N.mod_lt; lia|reflexivity].
  - apply IH; [apply N.div_lt; lia|apply N.neq_0_lt_0, E].
Qed.

Lemma int_of_str_digit d r :
  (d < 10)%N ->
  int_of_str (String (pretty_N_char d) r)
  = match read_digits (String (pretty_N_char d) r) 0 0 with
    | Some (v, n, rest) =>
        if all_space rest && (n <=? max_str_digits)%nat then Ok v
        else Raise ValueError
    | None => Raise ValueError
    end.
Proof.
  intros H%digit_cases. repeat destruct H as [->|H]; try subst d; reflexivity.
Qed.

(** [int] reads the decimal numeral of a natural number as that number, as
    long as the numeral is within the digits [int] accepts. *)
Lemma int_of_str_pretty (n : N) :
  (String.length (pretty n) <= max_str_digits)%nat ->
  int_of_str (pretty n) = Ok (Z.of_N n).
Proof.
  unfold pretty, pretty_N. destruct (decide (n = 0%N)) as [->|Hn].
  { intros _. reflexivity. }
  intros Hlen.
  destruct (pretty_N_go_head n "") as (d & r & Hd & E); [lia|].
  destruct (read_digits_pretty n) as (l & Hl).
  destruct (Hl "" 0 0%nat) as [Hr Hl']. clear Hl.
  rewrite E in Hlen, Hr, Hl' |- *. rewrite (int_of_str_digit d r Hd), Hr.
  cbn [read_digits all_space andb Nat.add]. cbn [String.length] in Hlen, Hl'.
  replace (l <=? max_str_digits)%nat with true
    by (symmetry; apply Nat.leb_le; lia).
  rewrite Z.mul_0_l. reflexivity.
Qed.

End NextId.


(** ** Frames and the workbook *)

Section Store.

Implicit Types (df : DataFrame) (st : xlsx) (sheets : gmap string DataFrame).

Lemma filter_all {A} (p : A -> bool) (l : list A) :
  (forall x, In x l -> p x = true) -> List.filter p l = l.
Proof.
  induction l as [|x l IH]; simpl; intros H; [reflexivity|].
  rewrite (H x) by auto. f_equal. apply IH. auto.
Qed.

Lemma select_all p df :
  (forall r, In r (rows df) -> p r = true) -> select p df = df.
Proof.
  intros H. destruct df as [cols rs]. unfold select. simpl in *.
  f_equal. apply filter_all, H.
Qed.

Lemma select_ext p q df :
  (forall r, p r = q r) -> select p df = select q df.
Proof.
  intros H. unfold select. f_equal. apply List.filter_ext, H.
Qed.

(** What [select] keeps: the rows under the mask, in their order. *)
Lemma select_In p df r :
  In r (rows (select p df)) <-> In r (rows df) /\ p r = true.
Proof. unfold select. simpl. apply List.filter_In. Qed.

Lemma without_In p df r :
  In r (rows (without p df)) <-> In r (rows df) /\ p r = false.
Proof.
  unfold without. rewrite select_In, negb_true_iff. reflexivity.
Qed.

Lemma df_empty_false df :
  df_empty df = false <-> columns df <> [] /\ rows df <> [].
Proof.
  unfold df_empty. destruct (columns df), (rows df); split;
    try discriminate; try (intros [? ?]; congruence); intros _; split; discriminate.
Qed.

Lemma has_column_nonempty df col : has_column df col = true -> columns df <> [].
Proof.
  unfold has_column. intros H%bool_decide_eq_true Hn. rewrite Hn in H.
  inversion H.
Qed.

(** A frame without rows, or without the column, has no row that refers. *)
Lemma without_refers_empty df col v :
  df_empty df = true -> without (refers df col v) df = df.
Proof.
  intros He. apply select_all. intros r Hr. unfold refers.
  destruct (has_column df col) eqn:Hc; [|reflexivity].
  apply has_column_nonempty in Hc. unfold df_empty in He.
  destruct (columns df); [congruence|]. destruct (rows df); [inversion Hr|discriminate].
Qed.

Lemma without_refers_no_column df col v :
  has_column df col = false -> without (refers df col v) df = df.
Proof.
  intros Hc. apply select_all. intros r _. unfold refers. rewrite Hc. reflexivity.
Qed.

Lemma without_refers_any_no_column df col vs :
  has_column df col = false -> without (refers_any df col vs) df = df.
Proof.
  intros Hc. apply select_all. intros r _. unfold refers_any. rewrite Hc. reflexivity.
Qed.

Lemma without_refers_any_nil df col :
  without (refers_any df col []) df = df.
Proof.
  apply select_all. intros r _. unfold refers_any.
  destruct (has_column df col); reflexivity.
Qed.

Lemma without_refers_any_empty df col vs :
  df_empty df = true -> without (refers_any df col vs) df = df.
Proof.
  intros He. apply select_all. intros r Hr. unfold refers_any.
  destruct (has_column df col) eqn:Hc; [|reflexivity].
  apply has_column_nonempty in Hc. unfold df_empty in He.
  destruct (columns df); [congruence|]. destruct (rows df); [inversion Hr|discriminate].
Qed.

Lemma column_values_no_rows df col : rows df = [] -> column_values df col = [].
Proof.
  intros H. unfold column_values, getitem. rewrite H.
  destruct (has_column df col); reflexivity.
Qed.

Lemma where_eq_refers df col v :
  has_column df col = true -> where_eq df col v = Ok (select (refers df col v) df).
Proof.
  intros H. unfold where_eq. rewrite H. f_equal. apply select_ext.
  intros r. unfold refers. rewrite H. reflexivity.
Qed.

Lemma where_ne_refers df col v :
  has_column df col = true -> where_ne df col v = Ok (without (refers df col v) df).
Proof.
  intros H. unfold where_ne. rewrite H. f_equal. apply select_ext.
  intros r. unfold refers. rewrite H. reflexivity.
Qed.

Lemma where_not_isin_refers df col vs :
  has_column df col = true ->
  where_not_isin df col vs = Ok (without (refers_any df col vs) df).
Proof.
  intros H. unfold where_not_isin. rewrite H. f_equal. apply select_ext.
  intros r. unfold refers_any. rewrite H. reflexivity.
Qed.

Lemma where_ne_no_column df col v :
  has_column df col = false -> where_ne df col v = Raise KeyError.
Proof. intros H. unfold where_ne. rewrite H. reflexivity. Qed.

Lemma read_sheet_insert sheets sheet df :
  read_sheet sheet (Book (<[sheet := df]> sheets)) = df.
Proof. unfold read_sheet. rewrite lookup_insert_eq. reflexivity. Qed.

Lemma read_sheet_insert_ne sheets sheet other df :
  sheet <> other ->
  read_sheet other (Book (<[sheet := df]> sheets)) = read_sheet other (Book sheets).
Proof. intros H. unfold read_sheet. rewrite lookup_insert_ne by exact H. reflexivity. Qed.

(** Only a workbook gives a frame with rows. *)
Lemma read_sheet_nonempty sheet st :
  df_empty (read_sheet sheet st) = false -> exists sheets, st = Book sheets.
Proof. destruct st; try discriminate. eauto. Qed.

End Store.

(** Reading a sheet back through the writes that came before. *)
Ltac read_sheets :=
  repeat case_decide; subst;
  repeat first [rewrite read_sheet_insert
                |rewrite read_sheet_insert_ne by congruence];
  try reflexivity.


(** ** Deleting a client *)

Section DeleteClient.

Implicit Types (df : DataFrame) (sheets : gmap string DataFrame).

Lemma lookup_client_id_ok df name cid :
  lookup_client_id df name = Ok cid ->
  has_column df "client_id" = true /\ df_empty df = false.
Proof.
  unfold lookup_client_id, where_eq, mbind, result_bind.
  destruct (has_column df "full_name") eqn:Hn; [|discriminate].
  unfold getitem. change (has_column (select _ df) "client_id")
    with (has_column df "client_id").
  destruct (has_column df "client_id") eqn:Hc; [|discriminate].
  intros H. split; [reflexivity|]. apply df_empty_false.
  split; [eapply has_column_nonempty, Hc|].
  intros Hr. unfold select in H. rewrite Hr in H. discriminate.
Qed.

Lemma select_refers_no_column df col v :
  has_column df col = false -> rows (select (refers df col v) df) = [].
Proof.
  intros Hc. unfold select, refers. simpl. rewrite Hc. simpl.
  induction (rows df); auto.
Qed.

Lemma select_refers_empty df col v :
  df_empty df = true -> rows (select (refers df col v) df) = [].
Proof.
  intros He. destruct (has_column df col) eqn:Hc;
    [|apply select_refers_no_column, Hc].
  apply has_column_nonempty in Hc. unfold df_empty in He. unfold select. simpl.
  destruct (columns df); [congruence|]. destruct (rows df); [reflexivity|discriminate].
Qed.

(** What each sheet reads after the handler has run, whether it ran to its
    end or stopped at a missing column. *)
Lemma delete_client_reads sheets name cid :
  let st := Book sheets in
  let clients := read_sheet "clients" st in
  let orders := read_sheet "orders" st in
  let payments := read_sheet "payments" st in
  let removed := select (refers orders "client_id" cid) orders in
  lookup_client_id clients name = Ok cid ->
  forall sheet,
    read_sheet sheet (exec (delete_client name) st) =
      if decide (sheet = "clients"%string)
      then without (refers clients "client_id" cid) clients
      else if decide (sheet = "orders"%string)
      then without (refers orders "client_id" cid) orders
      else if decide (sheet = "payments"%string)
      then without (refers_any payments "order_id" (column_values removed "order_id"))
             payments
      else read_sheet sheet st.
Proof.
  intros st clients orders payments removed Hl sheet.
  destruct (lookup_client_id_ok _ _ _ Hl) as [Hc He].
  unfold delete_client, exec, mbind, M_bind, load_data, lift.
  fold clients. rewrite He. cbn [negb]. rewrite Hl.
  rewrite (where_ne_refers _ _ _ Hc).
  unfold save_data at 1. unfold st at 1.
  rewrite !(read_sheet_insert_ne _ "clients") by discriminate.
  fold st orders payments.
  set (sheets1 := <["clients"%string := _]> sheets).
  destruct (df_empty orders) eqn:Heo; cbn [negb].
  { (* no orders: nothing more is written *)
    cbn [snd mret M_ret]. unfold sheets1. read_sheets.
    - symmetry. apply without_refers_empty, Heo.
    - symmetry. unfold removed.
      rewrite column_values_no_rows by (apply select_refers_empty, Heo).
      apply without_refers_any_nil. }
  destruct (has_column orders "client_id") eqn:Hoc.
  2:{ (* the orders have no client_id column: KeyError *)
    unfold where_eq. rewrite Hoc. cbn [snd]. unfold sheets1. read_sheets.
    - symmetry. apply without_refers_no_column, Hoc.
    - symmetry. unfold removed.
      rewrite column_values_no_rows by (apply select_refers_no_column, Hoc).
      apply without_refers_any_nil. }
  rewrite (where_eq_refers _ _ _ Hoc), (where_ne_refers _ _ _ Hoc).
  fold removed. unfold save_data at 1.
  set (sheets2 := <["orders"%string := _]> sheets1).
  assert (Hrc : has_column removed "order_id" = has_column orders "order_id")
    by reflexivity.
  destruct (df_empty payments) eqn:Hep; cbn [negb andb].
  { cbn [snd mret M_ret]. unfold sheets2, sheets1. read_sheets.
    symmetry. apply without_refers_any_empty, Hep. }
  destruct (df_empty removed) eqn:Her; cbn [negb andb].
  { cbn [snd mret M_ret]. unfold sheets2, sheets1. read_sheets.
    symmetry. rewrite column_values_no_rows; [apply without_refers_any_nil|].
    apply df_empty_false in Heo as [Hcols _]. unfold df_empty in Her.
    change (columns removed) with (columns orders) in Her.
    destruct (columns orders); [congruence|].
    destruct (rows removed); [reflexivity|discriminate]. }
  unfold column_values.
  destruct (has_column payments "order_id") eqn:Hpc.
  2:{ unfold getitem at 1. rewrite Hpc. cbn [snd]. unfold sheets2, sheets1.
      read_sheets. symmetry. apply without_refers_any_no_column, Hpc. }
  unfold getitem at 1. rewrite Hpc.
  destruct (getitem removed "order_id") as [order_ids|e] eqn:Hg.
  2:{ cbn [snd]. unfold sheets2, sheets1. read_sheets.
      symmetry. apply without_refers_any_nil. }
  rewrite (where_not_isin_refers _ _ _ Hpc). unfold save_data. cbn [snd].
  unfold sheets2, sheets1. read_sheets.
Qed.

End DeleteClient.

(** C1.  The handler is handed a name, not a client, and takes the first
    client row that carries it.  With two clients named "Ama", each with an
    order and a payment, deleting the second of them removes the first with
    its order and payment; the second, the one chosen, is still there with
    its order and its payment. *)
Theorem delete_client_namesake :
  let C := client_row 2 "Ama" in
  read_sheet "clients" namesake_book
  = {| columns := clients_columns; rows := [client_row 1 "Ama"; C] |}
  /\ cell C "full_name" = VStr "Ama"
  /\ delete_client (cell C "full_name") namesake_book
     = (Ok tt,
        Book (list_to_map
                [("clients"%string, {| columns := clients_columns; rows := [C] |});
                 ("orders"%string,
                  {| columns := orders_columns;
                     rows := [order_row 2 2 "Bedding" "Ready" 2400] |});
                 ("payments"%string,
                  {| columns := payments_columns; rows := [payment_row 2 2 500] |});
                 ("costs"%string, blank costs_columns)])).
Proof. repeat split; vm_compute; reflexivity. Qed.

(** The forms lead there: a client "Ama", an order for her, a second client
    "Ama".  Deleting "Ama" then takes the first client and her order and
    leaves the second. *)
Example namesakes_by_the_forms :
  let day := {| year := 2025; month := 3; day := 9 |} in
  let st1 := exec (add_client "Ama" "Buea" "ama@mail" "Molyko" "first") (init_excel Absent) in
  let st2 := exec (add_order (VStr "Ama") "Bedding" 2 day day 0 "Ready" "none") st1 in
  let st3 := exec (add_client "Ama" "Limbe" "ama@post" "Mile Four" "second") st2 in
  let st4 := exec (delete_client (VStr "Ama")) st3 in
  column_values (read_sheet "clients" st3) "client_id" = ints [1; 2]
  /\ column_values (read_sheet "clients" st3) "full_name" = texts ["Ama"; "Ama"]
  /\ column_values (read_sheet "orders" st3) "client_id" = ints [1]
  /\ column_values (read_sheet "clients" st4) "client_id" = ints [2]
  /\ column_values (read_sheet "clients" st4) "notes" = texts ["second"]
  /\ column_values (read_sheet "orders" st4) "order_id" = [].
Proof. repeat split; vm_compute; reflexivity. Qed.

(** C10.  With no order on file, deleting a client writes the clients sheet
    and nothing else: the run ends without an exception in the workbook it
    started from with only the clients sheet replaced, so the orders and
    payments sheets, orphaned payments included, are what they were. *)
Theorem delete_client_without_orders (st : xlsx) (name cid : value) :
  let clients := read_sheet "clients" st in
  lookup_client_id clients name = Ok cid ->
  df_empty (read_sheet "orders" st) = true ->
  exists sheets,
    st = Book sheets
    /\ delete_client name st
       = (Ok tt, Book (<["clients"%string := without (refers clients "client_id" cid) clients]>
                         sheets))
    /\ read_sheet "orders" (exec (delete_client name) st) = read_sheet "orders" st
    /\ read_sheet "payments" (exec (delete_client name) st) = read_sheet "payments" st.
Proof.
  intros clients Hl Heo.
  destruct (lookup_client_id_ok _ _ _ Hl) as [Hc He].
  destruct (read_sheet_nonempty _ _ He) as [sheets ->].
  exists sheets. split; [reflexivity|].
  assert (Hrun : delete_client name (Book sheets)
                 = (Ok tt, Book (<["clients"%string :=
                                     without (refers clients "client_id" cid) clients]>
                                   sheets))).
  { unfold delete_client, mbind, M_bind, load_data, lift.
    fold clients. rewrite He. cbn [negb]. rewrite Hl.
    rewrite (where_ne_refers _ _ _ Hc). unfold save_data at 1.
    rewrite !(read_sheet_insert_ne _ "clients") by discriminate.
    rewrite Heo. reflexivity. }
  split; [exact Hrun|]. unfold exec. rewrite Hrun. cbn [snd].
  split; apply read_sheet_insert_ne; discriminate.
Qed.

Lemma delete_client_without_orders_witness :
  read_sheet "payments" (exec (delete_client (VStr "Kofi")) orphan_book)
  = {| columns := payments_columns; rows := [payment_row 7 9 300] |}.
Proof.
  assert (Hl : lookup_client_id (read_sheet "clients" orphan_book) (VStr "Kofi")
               = Ok (VNum (NInt 2))) by (vm_compute; reflexivity).
  assert (He : df_empty (read_sheet "orders" orphan_book) = true)
    by (vm_compute; reflexivity).
  destruct (delete_client_without_orders orphan_book (VStr "Kofi") (VNum (NInt 2)) Hl He)
    as (sheets & _ & _ & _ & H).
  rewrite H. vm_compute. reflexivity.
Defined.

(** ** Deleting an order *)

Section DeleteOrder.

Implicit Types (df : DataFrame) (sheets : gmap string DataFrame).

Lemma delete_order_reads sheets id :
  let st := Book sheets in
  let orders := read_sheet "orders" st in
  let payments := read_sheet "payments" st in
  df_empty orders = false -> df_empty (read_sheet "clients" st) = false ->
  has_column orders "order_id" = true ->
  forall sheet,
    read_sheet sheet (exec (delete_order id) st) =
      if decide (sheet = "orders"%string)
      then without (refers orders "order_id" (NInt id)) orders
      else if decide (sheet = "payments"%string)
      then without (refers payments "order_id" (NInt id)) payments
      else read_sheet sheet st.
Proof.
  intros st orders payments Heo Hec Hoc sheet.
  unfold delete_order, exec, mbind, M_bind, load_data, lift.
  fold orders. rewrite Heo, Hec. cbn [negb andb].
  rewrite (where_ne_refers _ _ _ Hoc). unfold save_data at 1. unfold st at 1.
  rewrite (read_sheet_insert_ne _ "orders" "payments") by discriminate.
  fold st payments.
  destruct (has_column payments "order_id") eqn:Hpc.
  - rewrite (where_ne_refers _ _ _ Hpc). unfold save_data. cbn [snd]. read_sheets.
  - rewrite (where_ne_no_column _ _ _ Hpc). cbn [snd]. read_sheets.
    symmetry. apply without_refers_no_column, Hpc.
Qed.

End DeleteOrder.

(** C4.  Deleting an order removes the order rows of that id and the payment
    rows of that order id, and nothing else: the other orders (those of the
    same client too) and the payments of other orders stay, in their order,
    and the clients and the costs are untouched.  The page offers the
    deletion only while there are orders (with their ids) and clients. *)
Theorem delete_order_cascade (st : xlsx) (id : Z) :
  let orders := read_sheet "orders" st in
  let payments := read_sheet "payments" st in
  df_empty orders = false -> df_empty (read_sheet "clients" st) = false ->
  has_column orders "order_id" = true ->
  let st' := exec (delete_order id) st in
  read_sheet "orders" st' = without (refers orders "order_id" (NInt id)) orders
  /\ read_sheet "payments" st' = without (refers payments "order_id" (NInt id)) payments
  /\ read_sheet "clients" st' = read_sheet "clients" st
  /\ read_sheet "costs" st' = read_sheet "costs" st
  /\ (forall r, In r (rows orders) ->
                value_eqb (cell r "order_id") (NInt id) = false ->
                In r (rows (read_sheet "orders" st')))
  /\ (forall r, In r (rows payments) ->
                value_eqb (cell r "order_id") (NInt id) = false ->
                In r (rows (read_sheet "payments" st'))).
Proof.
  intros orders payments Heo Hec Hoc st'.
  destruct (read_sheet_nonempty _ _ Heo) as [sheets ->].
  pose proof (delete_order_reads sheets id Heo Hec Hoc) as H. cbv zeta in H.
  fold orders payments st' in H.
  assert (H1 := H "orders"%string). assert (H2 := H "payments"%string).
  assert (H3 := H "clients"%string). assert (H4 := H "costs"%string).
  clear H. repeat case_decide; try congruence.
  repeat split; auto.
  - intros r Hr Hne. rewrite H1. apply without_In. split; [exact Hr|].
    unfold refers. rewrite Hne. apply andb_false_r.
  - intros r Hr Hne. rewrite H2. apply without_In. split; [exact Hr|].
    unfold refers. rewrite Hne. apply andb_false_r.
Qed.

Lemma delete_order_cascade_witness :
  read_sheet "orders" (exec (delete_order 1) sample_book)
  = {| columns := orders_columns;
       rows := [order_row 2 1 "Bedding" "Ready" 2400;
                order_row 3 2 "WDI (Wash, Dry, Iron)" "Completed" 1400] |}
  /\ read_sheet "payments" (exec (delete_order 1) sample_book)
     = {| columns := payments_columns; rows := [payment_row 3 3 1400] |}.
Proof.
  destruct (delete_order_cascade sample_book 1) as (H1 & H2 & _);
    try (vm_compute; reflexivity).
  rewrite H1, H2. split; vm_compute; reflexivity.
Defined.

(** ** Updating an order's status *)

Section UpdateStatus.

Implicit Types (df : DataFrame) (sheets : gmap string DataFrame).

(** The run of the handler under the page's guard: a status column of
    numbers makes the assignment raise, and nothing is written; otherwise
    the orders sheet is rewritten with the new status in the rows of the
    chosen id. *)
Lemma update_order_status_run sheets id new_status :
  let st := Book sheets in
  let orders := read_sheet "orders" st in
  df_empty orders = false -> df_empty (read_sheet "clients" st) = false ->
  has_column orders "order_id" = true ->
  update_order_status id new_status st
  = if has_column orders "status" && numeric_column orders "status"
    then (Raise TypeError, st)
    else (Ok tt,
          Book (<["orders"%string :=
                   {| columns := if has_column orders "status" then columns orders
                                 else columns orders ++ ["status"%string];
                      rows := map (fun r => if refers orders "order_id" (NInt id) r
                                            then <["status"%string := VStr new_status]> r
                                            else r) (rows orders) |}]> sheets)).
Proof.
  intros st orders Heo Hec Hoc.
  unfold update_order_status, mbind, M_bind, load_data, lift.
  fold orders. rewrite Heo, Hec. cbn [negb andb].
  unfold loc_set. rewrite Hoc.
  destruct (has_column orders "status" && numeric_column orders "status");
    [reflexivity|].
  unfold save_data, st. do 4 f_equal.
  apply map_ext. intros r. unfold refers. rewrite Hoc. reflexivity.
Qed.

(** Every run of the handler: the workbook is left as it was (the guard
    fails or the assignment raises), or the orders sheet is rewritten as
    above. *)
Lemma update_order_status_cases st id new_status :
  let orders := read_sheet "orders" st in
  let st' := exec (update_order_status id new_status) st in
  st' = st
  \/ (has_column orders "status" && numeric_column orders "status" = false
      /\ exists sheets,
           st = Book sheets
           /\ update_order_status id new_status st
              = (Ok tt,
                 Book (<["orders"%string :=
                          {| columns := if has_column orders "status" then columns orders
                                        else columns orders ++ ["status"%string];
                             rows := map (fun r => if refers orders "order_id" (NInt id) r
                                                   then <["status"%string := VStr new_status]> r
                                                   else r) (rows orders) |}]> sheets))).
Proof.
  intros orders st'.
  destruct (negb (df_empty orders) && negb (df_empty (read_sheet "clients" st))) eqn:Hg.
  2:{ left. unfold st', update_order_status, exec, mbind, M_bind, load_data.
      fold orders. rewrite Hg. reflexivity. }
  apply andb_true_iff in Hg as [Heo%negb_true_iff Hec%negb_true_iff].
  destruct (read_sheet_nonempty _ _ Heo) as [sheets ->].
  destruct (has_column orders "order_id") eqn:Hoc.
  2:{ left. unfold st', update_order_status, exec, mbind, M_bind, load_data, lift.
      fold orders. rewrite Heo, Hec. cbn [negb andb].
      unfold loc_set. rewrite Hoc. reflexivity. }
  pose proof (update_order_status_run sheets id new_status Heo Hec Hoc) as Hrun.
  cbv zeta in Hrun. fold orders in Hrun.
  destruct (has_column orders "status" && numeric_column orders "status") eqn:Hnum.
  - left. unfold st', exec. rewrite Hrun. reflexivity.
  - right. split; [reflexivity|]. exists sheets. split; [reflexivity|exact Hrun].
Qed.

Lemma cell_insert_eq (r : row) col x : cell (<[col := x]> r) col = x.
Proof.
  unfold cell, row in *. rewrite lookup_insert_eq. reflexivity.
Qed.

Lemma cell_insert_ne (r : row) col other x :
  col <> other -> cell (<[col := x]> r) other = cell r other.
Proof.
  intros H. unfold cell, row in *. rewrite lookup_insert_ne by exact H. reflexivity.
Qed.

Lemma Forall2_map_intro {A B} (f : A -> B) (P : A -> B -> Prop) (l : list A) :
  (forall x, In x l -> P x (f x)) -> Forall2 P l (map f l).
Proof.
  induction l as [|x l IH]; simpl; intros H; constructor; auto.
Qed.

Lemma Forall2_same {A} (P : A -> A -> Prop) (l : list A) :
  (forall x, In x l -> P x x) -> Forall2 P l l.
Proof.
  induction l as [|x l IH]; simpl; intros H; constructor; auto.
Qed.

(** A run of [delete_client] never adds or alters an order row. *)
Lemma delete_client_keeps_rows st name r :
  In r (rows (read_sheet "orders" (exec (delete_client name) st))) ->
  In r (rows (read_sheet "orders" st)).
Proof.
  destruct (df_empty (read_sheet "clients" st)) eqn:He.
  { unfold delete_client, exec, mbind, M_bind, load_data.
    rewrite He. cbn. auto. }
  destruct (read_sheet_nonempty _ _ He) as [sheets ->].
  destruct (lookup_client_id (read_sheet "clients" (Book sheets)) name)
    as [cid|e] eqn:Hl.
  - rewrite (delete_client_reads sheets name cid Hl "orders").
    repeat case_decide; try congruence. intros Hin%without_In. tauto.
  - unfold delete_client, exec, mbind, M_bind, load_data, lift.
    rewrite He. cbn [negb]. rewrite Hl. cbn. auto.
Qed.

(** Nor does a run of [delete_order]. *)
Lemma delete_order_keeps_rows st id r :
  In r (rows (read_sheet "orders" (exec (delete_order id) st))) ->
  In r (rows (read_sheet "orders" st)).
Proof.
  destruct (negb (df_empty (read_sheet "orders" st))
            && negb (df_empty (read_sheet "clients" st))) eqn:Hg.
  2:{ unfold delete_order, exec, mbind, M_bind, load_data.
      rewrite Hg. cbn. auto. }
  apply andb_true_iff in Hg as [Heo%negb_true_iff Hec%negb_true_iff].
  destruct (read_sheet_nonempty _ _ Heo) as [sheets ->].
  destruct (has_column (read_sheet "orders" (Book sheets)) "order_id") eqn:Hoc.
  - rewrite (delete_order_reads sheets id Heo Hec Hoc "orders").
    repeat case_decide; try congruence. intros Hin%without_In. tauto.
  - unfold delete_order, exec, mbind, M_bind, load_data, lift.
    rewrite Heo, Hec. cbn [negb andb].
    rewrite (where_ne_no_column _ _ _ Hoc). cbn. auto.
Qed.

End UpdateStatus.

(** C6.  "Update Status" rewrites the orders sheet row by row, in place: a
    row of another order id is kept as it is, and a row of the chosen id
    keeps every entry but "status", so its total_fee is the one it had; no
    column is lost and no other sheet changes.  The other handlers that
    write the orders sheet leave the rows they keep as they were:
    [delete_order] and [delete_client] only drop rows, [add_row] only
    appends one. *)
Theorem update_order_status_frame (st : xlsx) (id : Z) (new_status : string) :
  let orders := read_sheet "orders" st in
  df_empty orders = false -> df_empty (read_sheet "clients" st) = false ->
  has_column orders "order_id" = true ->
  let st' := exec (update_order_status id new_status) st in
  let orders' := read_sheet "orders" st' in
  Forall2 (fun r r' =>
             (refers orders "order_id" (NInt id) r = false -> r' = r)
             /\ (forall col, col <> "status"%string -> r' !! col = r !! col)
             /\ cell r' "total_fee" = cell r "total_fee")
          (rows orders) (rows orders')
  /\ (forall col, has_column orders col = true -> has_column orders' col = true)
  /\ (forall sheet, sheet <> "orders"%string ->
                    read_sheet sheet st' = read_sheet sheet st)
  /\ (forall del_id r,
        In r (rows (read_sheet "orders" (exec (delete_order del_id) st))) ->
        In r (rows orders))
  /\ (forall name r,
        In r (rows (read_sheet "orders" (exec (delete_client name) st))) ->
        In r (rows orders))
  /\ (forall new_row,
        rows (read_sheet "orders" (exec (add_row "orders" new_row) st))
        = rows orders ++ [list_to_map new_row]).
Proof.
  intros orders Heo Hec Hoc st' orders'.
  destruct (read_sheet_nonempty _ _ Heo) as [sheets ->].
  pose proof (update_order_status_run sheets id new_status Heo Hec Hoc) as Hrun.
  cbv zeta in Hrun. fold orders in Hrun.
  assert (Hst : st' = snd (update_order_status id new_status (Book sheets)))
    by reflexivity.
  assert (Hrest :
            (forall del_id r,
               In r (rows (read_sheet "orders" (exec (delete_order del_id) (Book sheets)))) ->
               In r (rows orders))
            /\ (forall name r,
                  In r (rows (read_sheet "orders" (exec (delete_client name) (Book sheets)))) ->
                  In r (rows orders))
            /\ (forall new_row,
                  rows (read_sheet "orders" (exec (add_row "orders" new_row) (Book sheets)))
                  = rows orders ++ [list_to_map new_row])).
  { split; [|split].
    - intros del_id r. apply delete_order_keeps_rows.
    - intros name r. apply delete_client_keeps_rows.
    - intros new_row. unfold add_row, exec, mbind, M_bind, load_data, save_data.
      cbn [snd]. rewrite read_sheet_insert. reflexivity. }
  destruct (has_column orders "status" && numeric_column orders "status") eqn:Hnum;
    rewrite Hrun in Hst; cbn [snd] in Hst.
  - (* the assignment raises: nothing is written *)
    assert (Ho : orders' = orders) by (unfold orders'; rewrite Hst; reflexivity).
    split; [|split; [|split]].
    + rewrite Ho. apply Forall2_same. intros r _. auto.
    + intros col Hcol. rewrite Ho. exact Hcol.
    + intros sheet _. rewrite Hst. reflexivity.
    + exact Hrest.
  - assert (Ho : orders' = {| columns := if has_column orders "status" then columns orders
                                         else columns orders ++ ["status"%string];
                              rows := map (fun r => if refers orders "order_id" (NInt id) r
                                                    then <["status"%string := VStr new_status]> r
                                                    else r) (rows orders) |}).
    { unfold orders'. rewrite Hst. apply read_sheet_insert. }
    split; [|split; [|split]].
    + rewrite Ho. cbn [rows]. apply Forall2_map_intro. intros r _.
      destruct (refers orders "order_id" (NInt id) r); repeat split; auto.
      * discriminate.
      * intros col Hcol. apply lookup_insert_ne. congruence.
      * apply cell_insert_ne. discriminate.
    + intros col Hcol. rewrite Ho. unfold has_column in Hcol.
      apply bool_decide_eq_true in Hcol.
      unfold has_column at 1. cbn [columns]. apply bool_decide_eq_true.
      destruct (has_column orders "status"); [exact Hcol|].
      apply elem_of_app. auto.
    + intros sheet Hne. rewrite Hst. apply read_sheet_insert_ne. congruence.
    + exact Hrest.
Qed.

Lemma update_order_status_frame_witness :
  read_sheet "orders" (exec (update_order_status 2 "Completed") sample_book)
  = {| columns := orders_columns;
       rows := [order_row 1 1 "WDF (Wash, Dry, Fold)" "Processing" 5000;
                order_row 2 1 "Bedding" "Completed" 2400;
                order_row 3 2 "WDI (Wash, Dry, Iron)" "Completed" 1400] |}
  /\ read_sheet "payments" (exec (update_order_status 2 "Completed") sample_book)
     = sample_payments.
Proof.
  destruct (update_order_status_frame sample_book 2 "Completed")
    as (_ & _ & H & _); try (vm_compute; reflexivity).
  split; [vm_compute; reflexivity|].
  rewrite (H "payments"%string) by discriminate. vm_compute. reflexivity.
Defined.

(** C7, as the code has it.  The handler checks nothing itself: it writes
    the status it is handed into the rows of the chosen order.  What it is
    handed is what the "New Status" box hands over, one of the box's four
    options.  So whatever the user does with the box, the orders afterwards
    are the orders as they were or carry one of the four statuses in the
    rows of the chosen order, and no other sheet changes.  On an orders
    sheet whose status column holds text, as the forms write it, or is not
    there yet, each of the four can be chosen and is then stored; and a box
    left as it was drawn stores the order's current status when that is one
    of the four and "Scheduled Pickup" when it is not, so a status that is
    none of the four is replaced, never written back. *)
Theorem update_status_canonical (st : xlsx) (id : Z) (current : value)
    (ui_value : option nat) :
  let orders := read_sheet "orders" st in
  let after ui := read_sheet "orders" (exec (update_status_page id current ui) st) in
  (rows (after ui_value) = rows orders
   \/ exists s, In s status_options /\ status_set orders (after ui_value) id s)
  /\ (forall sheet, sheet <> "orders"%string ->
                    read_sheet sheet (exec (update_status_page id current ui_value) st)
                    = read_sheet sheet st)
  /\ (df_empty orders = false -> df_empty (read_sheet "clients" st) = false ->
      has_column orders "order_id" = true ->
      has_column orders "status" && numeric_column orders "status" = false ->
      (forall s, In s status_options ->
                 exists i, status_options !! i = Some s
                           /\ status_set orders (after (Some i)) id s)
      /\ (exists s, status_options !! status_index current = Some s
                    /\ status_set orders (after None) id s
                    /\ (current = VStr s
                        \/ ((forall t, In t status_options -> current <> VStr t)
                            /\ s = "Scheduled Pickup"%string)))
      /\ (forall new_status,
            status_set orders
              (read_sheet "orders" (exec (update_order_status id new_status) st))
              id new_status))
  /\ (forall s, In s status_options <->
                s = "Scheduled Pickup"%string \/ s = "Processing"%string
                \/ s = "Ready"%string \/ s = "Completed"%string).
Proof.
  intros orders after.
  assert (Hpage : forall ui s,
            status_options !! default (status_index current) ui = Some s ->
            update_status_page id current ui st = update_order_status id s st).
  { intros ui s Hs. unfold update_status_page, mbind, M_bind, lift, selectbox.
    rewrite Hs. reflexivity. }
  assert (Hnone : forall ui,
            status_options !! default (status_index current) ui = None ->
            exec (update_status_page id current ui) st = st).
  { intros ui Hs. unfold update_status_page, exec, mbind, M_bind, lift, selectbox.
    rewrite Hs. reflexivity. }
  assert (Hset : forall ui s,
            df_empty orders = false -> df_empty (read_sheet "clients" st) = false ->
            has_column orders "order_id" = true ->
            has_column orders "status" && numeric_column orders "status" = false ->
            status_options !! default (status_index current) ui = Some s ->
            status_set orders (after ui) id s).
  { intros ui s Heo Hec Hoc Hnum Hs. unfold after, exec. rewrite (Hpage ui s Hs).
    destruct (read_sheet_nonempty _ _ Heo) as [sheets ->].
    pose proof (update_order_status_run sheets id s Heo Hec Hoc) as Hrun.
    cbv zeta in Hrun. fold orders in Hrun. rewrite Hnum in Hrun.
    rewrite Hrun. cbn [snd]. rewrite read_sheet_insert.
    unfold status_set. cbn [rows]. apply Forall2_map_intro. auto. }
  split; [|split; [|split]].
  - destruct (status_options !! default (status_index current) ui_value)
      as [s|] eqn:Hs.
    2:{ left. unfold after. rewrite (Hnone _ Hs). reflexivity. }
    destruct (update_order_status_cases st id s) as [Hsame|(Hnum & sheets & -> & Hrun)].
    + left. unfold after, exec. rewrite (Hpage _ _ Hs). unfold exec in Hsame.
      rewrite Hsame. reflexivity.
    + right. exists s. split; [apply list_elem_of_In; eapply list_elem_of_lookup_2, Hs|].
      unfold after, exec. rewrite (Hpage _ _ Hs), Hrun. cbn [snd].
      rewrite read_sheet_insert. unfold status_set. cbn [rows].
      apply Forall2_map_intro. auto.
  - intros sheet Hne.
    destruct (status_options !! default (status_index current) ui_value)
      as [s|] eqn:Hs; [|rewrite (Hnone _ Hs); reflexivity].
    unfold exec. rewrite (Hpage _ _ Hs).
    destruct (update_order_status_cases st id s) as [Hsame|(Hnum & sheets & -> & Hrun)].
    + unfold exec in Hsame. rewrite Hsame. reflexivity.
    + rewrite Hrun. cbn [snd]. apply read_sheet_insert_ne. congruence.
  - intros Heo Hec Hoc Hnum. split; [|split].
    3:{ intros new_status. unfold exec.
        destruct (read_sheet_nonempty _ _ Heo) as [sheets ->].
        pose proof (update_order_status_run sheets id new_status Heo Hec Hoc) as Hrun.
        cbv zeta in Hrun. fold orders in Hrun. rewrite Hnum in Hrun.
        rewrite Hrun. cbn [snd]. rewrite read_sheet_insert.
        unfold status_set. cbn [rows]. apply Forall2_map_intro. auto. }
    + intros s Hin. apply list_elem_of_In, list_elem_of_lookup_1 in Hin as [i Hi].
      exists i. split; [exact Hi|]. apply (Hset (Some i) s); auto.
    + destruct (list_find (fun s => value_eqb (VStr s) current = true) status_options)
        as [[i s]|] eqn:Hf.
      * assert (Hidx : status_index current = i)
          by (unfold status_index; rewrite Hf; reflexivity).
        apply list_find_Some in Hf as (Hi & Heq & _).
        exists s. rewrite Hidx. split; [exact Hi|]. split.
        -- apply (Hset None s); auto. cbn [default]. rewrite Hidx. exact Hi.
        -- left. destruct current as [n|t]; simpl in Heq; [discriminate|].
           apply String.eqb_eq in Heq. congruence.
      * assert (Hidx : status_index current = 0%nat)
          by (unfold status_index; rewrite Hf; reflexivity).
        exists "Scheduled Pickup"%string. rewrite Hidx. split; [reflexivity|]. split.
        -- apply (Hset None); auto. cbn [default]. rewrite Hidx. reflexivity.
        -- right. split; [|reflexivity]. intros t Ht ->.
           apply list_find_None in Hf. rewrite Forall_forall in Hf.
           apply (Hf t); [apply list_elem_of_In, Ht|].
           cbn [value_eqb]. apply String.eqb_refl.
  - unfold status_options. simpl. intuition (subst; auto).
Qed.

Lemma update_status_canonical_witness :
  (exists i, status_options !! i = Some "Completed"%string
             /\ status_set sample_orders
                  (read_sheet "orders"
                     (exec (update_status_page 2 (VStr "Ready") (Some i)) sample_book))
                  2 "Completed")
  /\ read_sheet "orders"
       (exec (update_status_page 1 (VStr "Lost") None)
             (Book (list_to_map [("clients"%string, sample_clients);
                                 ("orders"%string, due ["Lost"%string])])))
     = due ["Scheduled Pickup"%string].
Proof.
  split; [|vm_compute; reflexivity].
  destruct (update_status_canonical sample_book 2 (VStr "Ready") None)
    as (_ & _ & H & _).
  destruct H as [H _]; try (vm_compute; reflexivity).
  destruct (H "Completed"%string) as (i & Hi & Hset).
  { unfold status_options. simpl. auto. }
  exists i. split; [exact Hi|]. exact Hset.
Defined.


(** C7, counterexample: a status of the four is not always accepted.  On an
    orders sheet whose status column is blank, pandas holds the column as
    numbers, the assignment of "Completed" raises [TypeError], and the
    workbook stays as it was. *)
Lemma update_status_blank_column :
  status_options !! 3%nat = Some "Completed"%string
  /\ column_values (read_sheet "orders" blank_status_book) "status" = [NaN]
  /\ update_status_page 1 NaN (Some 3%nat) blank_status_book
     = (Raise TypeError, blank_status_book).
Proof. repeat split; vm_compute; reflexivity. Qed.

(** ** The calendar *)

Section Calendar.

Lemma value_eqb_str v s : value_eqb v (VStr s) = true <-> v = VStr s.
Proof.
  destruct v as [n|t]; simpl; [split; discriminate|].
  rewrite String.eqb_eq. split; congruence.
Qed.

Lemma isin_in_progress v :
  isin v [VStr "Scheduled Pickup"; VStr "Processing"] = true <-> in_progress v.
Proof.
  unfold isin, in_progress. cbn [existsb].
  assert (Hna : forall t, isna v && isna (VStr t) = false) by (intros; apply andb_false_r).
  rewrite !Hna, !orb_false_r, !orb_true_iff, !value_eqb_str. tauto.
Qed.

Lemma all_completed status :
  forallb (fun v => value_eqb v (VStr "Completed")) status = true
  <-> Forall completed status.
Proof.
  rewrite forallb_forall, List.Forall_forall. unfold completed.
  split; intros H v Hv; apply value_eqb_str, H, Hv.
Qed.

Lemma any_in_progress status :
  existsb (fun v => isin v [VStr "Scheduled Pickup"; VStr "Processing"]) status = true
  <-> Exists in_progress status.
Proof.
  rewrite existsb_exists, List.Exists_exists.
  split; intros (v & Hv & H); exists v; (split; [exact Hv|]); apply isin_in_progress, H.
Qed.

(** When not every order is completed, some order is not. *)
Lemma any_not_completed status :
  forallb (fun v => value_eqb v (VStr "Completed")) status = false ->
  existsb (fun v => negb (value_eqb v (VStr "Completed"))) status = true.
Proof.
  induction status as [|v status IH]; simpl; [discriminate|].
  destruct (value_eqb v (VStr "Completed")); simpl; auto.
Qed.

End Calendar.

(** C5.  The colour of a day follows these branches, in this order: no order
    due, gray; every order completed, green; some order in "Scheduled
    Pickup" or "Processing", yellow, whatever the date; otherwise, with an
    order that is not completed, red for a day before today and blue for
    today or later.  The five colours differ. *)
Theorem day_color_branches (day_orders : DataFrame) (this_date today : date) :
  (df_empty day_orders = true -> day_color day_orders this_date today = Ok gray)
  /\ (forall status,
        df_empty day_orders = false -> getitem day_orders "status" = Ok status ->
        (Forall completed status -> day_color day_orders this_date today = Ok green)
        /\ (~ Forall completed status -> Exists in_progress status ->
            day_color day_orders this_date today = Ok yellow)
        /\ (~ Forall completed status -> ~ Exists in_progress status ->
            date_ltb this_date today = true ->
            day_color day_orders this_date today = Ok red)
        /\ (~ Forall completed status -> ~ Exists in_progress status ->
            date_ltb this_date today = false ->
            day_color day_orders this_date today = Ok blue))
  /\ NoDup [green; yellow; red; blue; gray].
Proof.
  split; [|split].
  - intros He. unfold day_color. rewrite He. reflexivity.
  - intros status He Hg. unfold day_color, mbind, result_bind.
    rewrite He, Hg. cbn [negb].
    destruct (forallb _ status) eqn:Hall.
    { apply all_completed in Hall. repeat split; tauto. }
    assert (Hnot : ~ Forall completed status).
    { intros H%all_completed. congruence. }
    rewrite (any_not_completed _ Hall), andb_true_r.
    destruct (existsb _ status) eqn:Hany.
    { apply any_in_progress in Hany. repeat split; tauto. }
    assert (Hnone : ~ Exists in_progress status).
    { intros H%any_in_progress. congruence. }
    repeat split; try tauto; intros _ _ Hd; rewrite Hd; reflexivity.
  - apply (bool_decide_unpack _). vm_compute. exact I.
Qed.

Lemma day_color_branches_witness :
  day_color (due ["Completed"%string]) {| year := 2025; month := 3; day := 9 |}
            {| year := 2025; month := 3; day := 10 |} = Ok green
  /\ day_color (due ["Processing"; "Completed"]%string)
               {| year := 2025; month := 3; day := 9 |}
               {| year := 2025; month := 3; day := 10 |} = Ok yellow
  /\ day_color (due ["Ready"%string]) {| year := 2025; month := 3; day := 9 |}
               {| year := 2025; month := 3; day := 10 |} = Ok red
  /\ day_color (due ["Ready"%string]) {| year := 2025; month := 3; day := 10 |}
               {| year := 2025; month := 3; day := 10 |} = Ok blue.
Proof.
  set (d9 := {| year := 2025; month := 3; day := 9 |}).
  set (d10 := {| year := 2025; month := 3; day := 10 |}).
  assert (Hg : forall l, getitem (due l) "status" = Ok (map VStr l)).
  { intros l. unfold getitem, due. cbn [rows columns]. rewrite map_map.
    reflexivity. }
  assert (Hready : ~ Forall completed (map VStr ["Ready"%string])).
  { intros H. inversion H as [|? ? Hc]. discriminate Hc. }
  assert (Hidle : ~ Exists in_progress (map VStr ["Ready"%string])).
  { intros H. inversion H as [? ? [Hp|Hp]|? ? Hp]; try discriminate Hp.
    inversion Hp. }
  split; [|split; [|split]].
  - apply (day_color_branches (due ["Completed"%string]) d9 d10)
      with (status := map VStr ["Completed"%string]);
      [reflexivity|apply Hg|repeat constructor].
  - apply (day_color_branches (due ["Processing"; "Completed"]%string) d9 d10)
      with (status := map VStr ["Processing"; "Completed"]%string);
      [reflexivity|apply Hg| |apply Exists_cons_hd; right; reflexivity].
    intros H. inversion H as [|? ? Hc]. discriminate Hc.
  - apply (day_color_branches (due ["Ready"%string]) d9 d10)
      with (status := map VStr ["Ready"%string]); auto.
  - apply (day_color_branches (due ["Ready"%string]) d10 d10)
      with (status := map VStr ["Ready"%string]); auto.
Defined.

(** ** The profit change *)

Section ProfitChange.

(** A float equals the integer 0 exactly when it is a zero. *)
Lemma num_eqb_float_0 f : num_eqb (NFloat f) (NInt 0) = (f =? 0)%float.
Proof.
  unfold num_eqb, float_compare_Z. rewrite FloatAxioms.eqb_spec.
  change (Prim2SF 0) with (S754_zero false).
  destruct (Prim2SF f) as [s|s| |s m e]; try destruct s; try reflexivity;
    unfold SFcompareZ, cond_Zopp, SFeqb, SFcompare;
    destruct (0 <=? e)%Z eqn:He; try reflexivity.
  - apply Z.leb_le in He. pose proof (Z.pow_pos_nonneg 2 e).
    destruct (Z.compare_spec (- Z.pos m * 2 ^ e) 0); try reflexivity. nia.
  - apply Z.leb_le in He. pose proof (Z.pow_pos_nonneg 2 e).
    destruct (Z.compare_spec (Z.pos m * 2 ^ e) 0); try reflexivity. nia.
Qed.

Lemma iloc_back_last2 (older : list num) last this :
  iloc_back (older ++ [last; this]) 1 = Ok this
  /\ iloc_back (older ++ [last; this]) 2 = Ok last.
Proof.
  unfold iloc_back. rewrite rev_app_distr. split; reflexivity.
Qed.

End ProfitChange.

(** C8.  The profit change is the integer 0 when [profit_df] has fewer than
    two months, and when the month before the latest has a profit equal to
    0 (for a float: either zero); otherwise it is
    [(this - last) / last * 100] of the latest two months. *)
Theorem profit_change_spec (profit : list num) :
  ((length profit < 2)%nat ->
   exists this, profit_change profit = Ok (this, NInt 0))
  /\ (forall older last this,
        profit = older ++ [last; this] ->
        (num_eqb last (NInt 0) = true ->
         profit_change profit = Ok (this, NInt 0))
        /\ (num_eqb last (NInt 0) = false ->
            profit_change profit
            = Ok (this, num_mul (num_div (num_sub this last) last) (NInt 100))))
  /\ (forall f, num_eqb (NFloat f) (NInt 0) = (f =? 0)%float).
Proof.
  split; [|split].
  - intros Hlen. destruct profit as [|a [|b l]]; simpl in Hlen; try lia.
    + exists (NInt 0). reflexivity.
    + exists a. reflexivity.
  - intros older last this ->.
    destruct (iloc_back_last2 older last this) as [H1 H2].
    assert (Hlen : (2 <=? length (older ++ [last; this]))%nat = true).
    { apply Nat.leb_le. rewrite length_app. simpl. lia. }
    unfold profit_change, mbind, result_bind. rewrite Hlen, H1, H2.
    split; intros ->; reflexivity.
  - apply num_eqb_float_0.
Qed.

Lemma profit_change_spec_witness :
  profit_change [NFloat 800; NFloat 1000; NFloat 1500] = Ok (NFloat 1500, NFloat 50)
  /\ profit_change [NFloat 0; NFloat 1500] = Ok (NFloat 1500, NInt 0)
  /\ (exists this, profit_change [NFloat 1500] = Ok (this, NInt 0)).
Proof.
  destruct (profit_change_spec [NFloat 800; NFloat 1000; NFloat 1500]) as (_ & H & _).
  destruct (H [NFloat 800] (NFloat 1000) (NFloat 1500) eq_refl) as [_ H1].
  destruct (profit_change_spec [NFloat 0; NFloat 1500]) as (_ & H' & _).
  destruct (H' [] (NFloat 0) (NFloat 1500) eq_refl) as [H2 _].
  destruct (profit_change_spec [NFloat 1500]) as (H3 & _).
  split; [|split].
  - rewrite H1 by (vm_compute; reflexivity). vm_compute. reflexivity.
  - apply H2. vm_compute. reflexivity.
  - apply H3. simpl. lia.
Defined.

(** ** The specification's scenario *)

(** Ama's order of 10 kg "WDF" costs 5000; with 2000 paid, deleting the
    order takes its payment with it. *)
Example order_then_delete :
  calculate_fee "WDF" (Some (NFloat 10)) (Some (NFloat 0)) = NFloat 5000
  /\ next_id (blank orders_columns) "order_id" = Ok 1
  /\ let book :=
       Book (list_to_map
               [("clients"%string,
                 {| columns := clients_columns; rows := [client_row 1 "Ama"] |});
                ("orders"%string,
                 {| columns := orders_columns;
                    rows := [order_row 1 1 "WDF" "Scheduled Pickup" 5000] |});
                ("payments"%string,
                 {| columns := payments_columns; rows := [payment_row 1 1 2000] |});
                ("costs"%string, blank costs_columns)]) in
     rows (read_sheet "orders" (exec (delete_order 1) book)) = []
     /\ rows (read_sheet "payments" (exec (delete_order 1) book)) = [].
Proof. vm_compute. repeat split; reflexivity. Qed.

Example next_id_135 :
  next_id {| columns := clients_columns;
             rows := [client_row 1 "Ama"; client_row 3 "Kofi"; client_row 5 "Esi"] |}
          "client_id" = Ok 6.
Proof. vm_compute. reflexivity. Qed.

Example next_id_float :
  next_id {| columns := ["id"%string];
             rows := [ {["id"%string := VNum (NFloat 1)]};
                       {["id"%string := VNum (NFloat 2.5)]};
                       {["id"%string := NaN]} ] |}
          "id" = Ok 3.
Proof. vm_compute. reflexivity. Qed.

(** Ids kept as text: the largest in the order of [str] is read as a
    numeral. *)
Example next_id_text :
  next_id {| columns := ["id"%string];
             rows := [ {["id"%string := VStr "1"]}; {["id"%string := VStr "2"]} ] |}
          "id" = Ok 3
  /\ next_id {| columns := ["id"%string];
                rows := [ {["id"%string := VStr "9"]}; {["id"%string := VStr "10"]} ] |}
             "id" = Ok 10
  /\ next_id {| columns := ["id"%string];
                rows := [ {["id"%string := VStr "1"]}; {["id"%string := VNum (NInt 2)]} ] |}
             "id" = Raise TypeError
  /\ next_id {| columns := ["id"%string];
                rows := [ {["id"%string := VStr "A7"]} ] |}
             "id" = Raise ValueError.
Proof. vm_compute. repeat split; reflexivity. Qed.

(** * Further properties of the store *)

(** ** The workbook file *)

(** X1.  [init_excel] writes a workbook only when there is no file: the
    four sheets, each with its columns and no row, so that each hands out 1
    as its first id.  A file that is there, whatever it holds, is left as it
    is, and a second call changes nothing. *)
Theorem init_excel_spec (st : xlsx) :
  (forall sheet cols id_col,
     In (sheet, cols, id_col)
        [("clients", clients_columns, "client_id");
         ("orders", orders_columns, "order_id");
         ("payments", payments_columns, "payment_id");
         ("costs", costs_columns, "expense_id")]%string ->
     read_sheet sheet (init_excel Absent) = blank cols
     /\ has_column (blank cols) id_col = true
     /\ next_id (read_sheet sheet (init_excel Absent)) id_col = Ok 1)
  /\ (st <> Absent -> init_excel st = st)
  /\ init_excel (init_excel st) = init_excel st
  /\ init_excel st <> Absent.
Proof.
  split; [|split; [|split]].
  - intros sheet cols id_col Hin. simpl in Hin.
    destruct Hin as [H|[H|[H|[H|[]]]]]; injection H as <- <- <-;
      vm_compute; repeat split; reflexivity.
  - destruct st; [congruence|reflexivity..].
  - destruct st; reflexivity.
  - destruct st; discriminate.
Qed.

(** X2.  [save_data] needs a workbook: with no file, or a file that is not
    one, it raises and the file stays as it was.  On a workbook the last
    write to a sheet wins, and writes to different sheets do not disturb
    each other. *)
Theorem save_data_writes (st : xlsx) (sheet other : string) (a b : DataFrame) :
  save_data sheet a Absent = (Raise FileNotFoundError, Absent)
  /\ (exists e, save_data sheet a Unreadable = (Raise e, Unreadable))
  /\ exec (save_data sheet b) (exec (save_data sheet a) st)
     = exec (save_data sheet b) st
  /\ (sheet <> other ->
      exec (save_data other b) (exec (save_data sheet a) st)
      = exec (save_data sheet a) (exec (save_data other b) st)).
Proof.
  split; [reflexivity|]. split; [eexists; reflexivity|]. split.
  - destruct st as [| |sheets]; try reflexivity.
    unfold exec, save_data. cbn [snd]. f_equal. apply insert_insert_eq.
  - intros Hne. destruct st as [| |sheets]; try reflexivity.
    unfold exec, save_data. cbn [snd]. f_equal. apply insert_insert_ne.
    congruence.
Qed.

Lemma save_data_writes_witness :
  exec (save_data "costs" sample_payments) (exec (save_data "orders" sample_clients) sample_book)
  = exec (save_data "orders" sample_clients) (exec (save_data "costs" sample_payments) sample_book).
Proof.
  apply (save_data_writes sample_book "orders" "costs" sample_clients sample_payments).
  discriminate.
Defined.

(** ** Appending rows and handing out ids *)

Section Append.

Implicit Types (df : DataFrame) (sheets : gmap string DataFrame).

Lemma has_column_concat_row df new_row col :
  has_column df col = true -> has_column (concat_row df new_row) col = true.
Proof.
  unfold has_column, concat_row. cbn [columns].
  intros H%bool_decide_eq_true. apply bool_decide_eq_true, elem_of_app. auto.
Qed.

Lemma add_row_run sheets sheet new_row :
  add_row sheet new_row (Book sheets)
  = (Ok tt, Book (<[sheet := concat_row (read_sheet sheet (Book sheets)) new_row]> sheets)).
Proof. reflexivity. Qed.

Lemma ints_app a b : ints (a ++ b) = ints a ++ ints b.
Proof. apply map_app. Qed.

(** The ids of a frame with one more row. *)
Lemma int_ids_concat_row df col ids new_row n :
  int_ids df col ids ->
  cell (list_to_map new_row) col = VNum (NInt n) ->
  int_ids (concat_row df new_row) col (ids ++ [n]).
Proof.
  unfold int_ids, getitem. intros H Hn.
  destruct (has_column df col) eqn:Hc; [|discriminate].
  rewrite (has_column_concat_row _ _ _ Hc). injection H as H.
  cbn [concat_row rows]. rewrite map_app, H, ints_app. cbn [map].
  rewrite Hn. reflexivity.
Qed.

Lemma int_ids_rows df col ids : int_ids df col ids -> length ids = length (rows df).
Proof.
  unfold int_ids, getitem. destruct (has_column df col); [|discriminate].
  intros [= H]. apply (f_equal (@length _)) in H.
  unfold ints in H. rewrite !length_map in H. auto.
Qed.

(** [next_id] on a column of integers: 1 for no row, else one more than an
    id of the column that no other id exceeds. *)
Lemma next_id_ints df col ids :
  int_ids df col ids ->
  exists n, next_id df col = Ok n
            /\ Forall (fun i => i < n) ids
            /\ (ids = [] -> n = 1)
            /\ (ids <> [] -> In (n - 1) ids).
Proof.
  intros H. pose proof (int_ids_rows _ _ _ H) as Hlen.
  unfold int_ids in H. unfold next_id, mbind, result_bind.
  destruct (df_empty df) eqn:He; cbn [negb].
  - exists 1. assert (ids = []) as ->.
    { unfold getitem in H. destruct (has_column df col) eqn:Hc; [|discriminate].
      apply has_column_nonempty in Hc. unfold df_empty in He.
      destruct (columns df); [congruence|].
      destruct (rows df); [|discriminate]. destruct ids; [reflexivity|discriminate]. }
    repeat split; auto. congruence.
  - rewrite H. destruct ids as [|z ids].
    { apply df_empty_false in He as [_ Hr]. destruct (rows df); [congruence|discriminate]. }
    destruct (series_max_ints z ids) as (m & Hm & Hin & Hall).
    rewrite Hm. exists (m + 1). cbn [int_of_value py_int]. repeat split.
    + eapply Forall_impl; [exact Hall|]. cbv beta. intros. lia.
    + discriminate.
    + intros _. replace (m + 1 - 1) with m by lia. exact Hin.
Qed.

Lemma NoDup_snoc_fresh (ids : list Z) n :
  Forall (fun i => i < n) ids -> List.NoDup ids -> List.NoDup (ids ++ [n]).
Proof.
  intros Hlt Hnd. induction ids as [|i ids IH]; simpl.
  - constructor; [intros []|constructor].
  - inversion Hlt as [|? ? Hi Hrest]; inversion Hnd as [|? ? Hnotin Hnd']; subst.
    constructor; [|auto].
    rewrite in_app_iff. intros [Hin|[Heq|[]]]; [auto|lia].
Qed.

End Append.

(** X3.  [add_row] on a workbook puts the new row last and keeps the rows
    and the columns that were there, in their order; keys the sheet did not
    have become columns, and columns without repetition stay so.  Only the
    named sheet is written.  With no file it raises and creates none. *)
Theorem add_row_appends (sheets : gmap string DataFrame) (sheet : string)
    (new_row : list (string * value)) :
  let df := read_sheet sheet (Book sheets) in
  let st' := exec (add_row sheet new_row) (Book sheets) in
  let df' := read_sheet sheet st' in
  fst (add_row sheet new_row (Book sheets)) = Ok tt
  /\ rows df' = rows df ++ [list_to_map new_row]
  /\ (exists added, columns df' = columns df ++ added
                    /\ forall k, In k added <->
                                 In k (map fst new_row) /\ has_column df k = false)
  /\ (forall k, In k (map fst new_row) -> has_column df' k = true)
  /\ (List.NoDup (columns df) -> List.NoDup (map fst new_row) ->
      List.NoDup (columns df'))
  /\ (forall other, other <> sheet -> read_sheet other st' = read_sheet other (Book sheets))
  /\ add_row sheet new_row Absent = (Raise FileNotFoundError, Absent).
Proof.
  intros df st' df'.
  assert (Hdf' : df' = concat_row df new_row).
  { unfold df', st', exec. rewrite add_row_run. apply read_sheet_insert. }
  split; [reflexivity|]. split; [rewrite Hdf'; reflexivity|].
  split; [|split; [|split; [|split]]].
  - eexists. split; [rewrite Hdf'; reflexivity|].
    intros k. rewrite List.filter_In, negb_true_iff. reflexivity.
  - intros k Hk. rewrite Hdf'. unfold has_column, concat_row. cbn [columns].
    apply bool_decide_eq_true, elem_of_app.
    destruct (has_column df k) eqn:Hc.
    + left. apply bool_decide_eq_true in Hc. exact Hc.
    + right. apply list_elem_of_In, List.filter_In. rewrite Hc. auto.
  - intros Hcols Hkeys. rewrite Hdf'. unfold concat_row. cbn [columns].
    apply NoDup_ListNoDup, NoDup_app. repeat split.
    + apply NoDup_ListNoDup, Hcols.
    + intros k Hk Hk'. apply list_elem_of_In, List.filter_In in Hk' as [_ Hk'].
      apply negb_true_iff in Hk'. unfold has_column in Hk'.
      apply bool_decide_eq_false in Hk'. auto.
    + apply NoDup_ListNoDup, List.NoDup_filter, Hkeys.
  - intros other Hne. unfold st', exec. rewrite add_row_run.
    apply read_sheet_insert_ne. congruence.
  - reflexivity.
Qed.

Lemma add_row_appends_witness :
  List.NoDup (columns (read_sheet "clients"
                         (exec (add_row "clients" [("client_id"%string, VNum (NInt 3));
                                                   ("city"%string, VStr "Buea")])
                               sample_book))).
Proof.
  destruct sample_book as [| |sheets] eqn:E; try discriminate.
  apply (add_row_appends sheets "clients").
  - injection E as <-. apply NoDup_ListNoDup. apply (bool_decide_unpack _).
    vm_compute. exact I.
  - apply NoDup_ListNoDup. apply (bool_decide_unpack _). vm_compute. exact I.
Defined.

(** X4.  On a table that has rows, [next_id] raises [KeyError] when the id
    column is not there, and [ValueError] when every id cell is blank
    (NaN): such a sheet takes no new row. *)
Theorem next_id_raises (df : DataFrame) (id_col : string) :
  df_empty df = false ->
  (has_column df id_col = false -> next_id df id_col = Raise KeyError)
  /\ (has_column df id_col = true ->
      (forall r, In r (rows df) -> isna (cell r id_col) = true) ->
      next_id df id_col = Raise ValueError).
Proof.
  intros He. unfold next_id, mbind, result_bind, getitem. rewrite He. cbn [negb].
  split; intros Hc; rewrite Hc; [reflexivity|].
  intros Hna.
  assert (Hmax : forall l, (forall v, In v l -> isna v = true) ->
                           nanmax l None = Ok NaN).
  { induction l as [|v l IH]; intros Hl; [reflexivity|].
    pose proof (Hl v (or_introl eq_refl)) as Hv.
    cbn [nanmax]. rewrite Hv.
    apply IH. intros w Hw. apply Hl. right. exact Hw. }
  unfold series_max. rewrite Hmax; [reflexivity|].
  intros v (r & <- & Hr)%in_map_iff. apply Hna, Hr.
Qed.

Lemma next_id_raises_witness :
  next_id {| columns := ["payment_id"%string];
             rows := [ {["payment_id"%string := NaN]} ] |} "payment_id"
  = Raise ValueError.
Proof.
  apply next_id_raises; [reflexivity|reflexivity|].
  intros r [<-|[]]. vm_compute. reflexivity.
Defined.

(** ** Adding a client or a cost, deleting a payment *)

Section AddDelete.

Implicit Types (df : DataFrame) (sheets : gmap string DataFrame).

(** The ids of the rows a mask on the id keeps. *)
Lemma int_ids_without df col ids v :
  int_ids df col ids ->
  int_ids (without (refers df col (VNum (NInt v))) df) col
          (List.filter (fun i => negb (i =? v)) ids).
Proof.
  unfold int_ids, getitem.
  change (has_column (without _ df) col) with (has_column df col).
  destruct (has_column df col) eqn:Hc; [|discriminate].
  intros [= H]. f_equal. unfold without, select, refers. cbn [rows]. rewrite Hc.
  revert ids H. induction (rows df) as [|r rs IH]; intros ids H.
  - destruct ids; [reflexivity|discriminate].
  - destruct ids as [|i ids]; [discriminate|]. injection H as Hr Hrs.
    cbn [List.filter map]. rewrite Hr. cbn [andb value_eqb num_eqb].
    destruct (i =? v); cbn [negb]; [apply IH, Hrs|].
    cbn [map ints]. rewrite Hr. f_equal. apply IH, Hrs.
Qed.

Lemma delete_payment_run sheets v :
  let payments := read_sheet "payments" (Book sheets) in
  df_empty payments = false -> has_column payments "payment_id" = true ->
  delete_payment v (Book sheets)
  = (Ok tt, Book (<["payments"%string := without (refers payments "payment_id" v) payments]>
                    sheets)).
Proof.
  intros payments He Hc. unfold delete_payment, mbind, M_bind, load_data, lift.
  fold payments. rewrite He. cbn [negb]. rewrite (where_ne_refers _ _ _ Hc).
  reflexivity.
Qed.

End AddDelete.

(** X5.  "Add Client" on a clients sheet whose ids are integers appends one
    row with the name that was entered and an id larger than every id on
    the sheet (1 on a sheet without rows), so ids that were distinct stay
    distinct; the rows that were there and the other sheets are kept. *)
Theorem add_client_fresh_id (sheets : gmap string DataFrame) (ids : list Z)
    (name phone email address notes : string) :
  let df := read_sheet "clients" (Book sheets) in
  int_ids df "client_id" ids ->
  let st' := exec (add_client name phone email address notes) (Book sheets) in
  let df' := read_sheet "clients" st' in
  exists n r,
    fst (add_client name phone email address notes (Book sheets)) = Ok tt
    /\ rows df' = rows df ++ [r]
    /\ cell r "client_id" = VNum (NInt n)
    /\ cell r "full_name" = VStr name
    /\ int_ids df' "client_id" (ids ++ [n])
    /\ Forall (fun i => i < n) ids
    /\ (ids = [] -> n = 1)
    /\ (List.NoDup ids -> List.NoDup (ids ++ [n]))
    /\ (forall other, other <> "clients"%string ->
                      read_sheet other st' = read_sheet other (Book sheets)).
Proof.
  intros df Hids st' df'.
  destruct (next_id_ints _ _ _ Hids) as (n & Hn & Hlt & Hone & _).
  set (new_row := [("client_id"%string, VNum (NInt n)); ("full_name"%string, VStr name);
                   ("phone"%string, VStr phone); ("email"%string, VStr email);
                   ("address"%string, VStr address); ("notes"%string, VStr notes)]).
  assert (Hrun : add_client name phone email address notes (Book sheets)
                 = (Ok tt, Book (<["clients"%string := concat_row df new_row]> sheets))).
  { unfold add_client, mbind, M_bind, load_data, lift. fold df. rewrite Hn.
    reflexivity. }
  assert (Hdf' : df' = concat_row df new_row).
  { unfold df', st', exec. rewrite Hrun. apply read_sheet_insert. }
  exists n, (list_to_map new_row).
  assert (Hcid : cell (list_to_map new_row) "client_id" = VNum (NInt n))
    by apply cell_insert_eq.
  split; [rewrite Hrun; reflexivity|]. split; [rewrite Hdf'; reflexivity|].
  split; [exact Hcid|]. split.
  { unfold new_row. cbn [list_to_map foldr uncurry].
    rewrite cell_insert_ne by discriminate. apply cell_insert_eq. }
  split; [rewrite Hdf'; apply int_ids_concat_row; assumption|].
  split; [exact Hlt|]. split; [exact Hone|].
  split; [apply NoDup_snoc_fresh, Hlt|].
  intros other Hne. unfold st', exec. rewrite Hrun. cbn [snd].
  apply read_sheet_insert_ne. congruence.
Qed.

Lemma add_client_fresh_id_witness :
  exists n r,
    rows (read_sheet "clients"
            (exec (add_client "Esi" "677" "esi@mail" "Buea" "none") sample_book))
    = rows sample_clients ++ [r]
    /\ cell r "client_id" = VNum (NInt n)
    /\ Forall (fun i => i < n) [1; 2].
Proof.
  destruct sample_book as [| |sheets] eqn:E; try discriminate.
  destruct (add_client_fresh_id sheets [1; 2] "Esi" "677" "esi@mail" "Buea" "none")
    as (n & r & _ & H1 & H2 & _ & _ & H3 & _).
  { injection E as <-. vm_compute. reflexivity. }
  exists n, r. split; [|auto]. rewrite H1. injection E as <-. reflexivity.
Defined.

(** X6.  "Add Cost" hands out expense ids the same way: on a costs sheet
    with integer ids the new row goes last with an id above every id there
    (1 on a sheet without rows), and no other sheet is written. *)
Theorem add_cost_fresh_id (sheets : gmap string DataFrame) (ids : list Z)
    (d : date) (cat desc : string) (amt : float) (fv notes : string) :
  let df := read_sheet "costs" (Book sheets) in
  int_ids df "expense_id" ids ->
  let st' := exec (add_cost d cat desc amt fv notes) (Book sheets) in
  let df' := read_sheet "costs" st' in
  exists n r,
    fst (add_cost d cat desc amt fv notes (Book sheets)) = Ok tt
    /\ rows df' = rows df ++ [r]
    /\ cell r "expense_id" = VNum (NInt n)
    /\ cell r "amount" = VNum (NFloat amt)
    /\ int_ids df' "expense_id" (ids ++ [n])
    /\ Forall (fun i => i < n) ids
    /\ (ids = [] -> n = 1)
    /\ (forall other, other <> "costs"%string ->
                      read_sheet other st' = read_sheet other (Book sheets)).
Proof.
  intros df Hids st' df'.
  destruct (next_id_ints _ _ _ Hids) as (n & Hn & Hlt & Hone & _).
  set (new_row := [("expense_id"%string, VNum (NInt n));
                   ("date_incurred"%string, VStr (sql_date d));
                   ("category"%string, VStr cat); ("description"%string, VStr desc);
                   ("amount"%string, VNum (NFloat amt));
                   ("fixed_variable"%string, VStr fv); ("notes"%string, VStr notes)]).
  assert (Hrun : add_cost d cat desc amt fv notes (Book sheets)
                 = (Ok tt, Book (<["costs"%string := concat_row df new_row]> sheets))).
  { unfold add_cost, mbind, M_bind, load_data, lift. fold df. rewrite Hn.
    reflexivity. }
  assert (Hdf' : df' = concat_row df new_row).
  { unfold df', st', exec. rewrite Hrun. apply read_sheet_insert. }
  exists n, (list_to_map new_row).
  assert (Hcid : cell (list_to_map new_row) "expense_id" = VNum (NInt n))
    by apply cell_insert_eq.
  split; [rewrite Hrun; reflexivity|]. split; [rewrite Hdf'; reflexivity|].
  split; [exact Hcid|]. split.
  { unfold new_row. cbn [list_to_map foldr uncurry].
    rewrite !cell_insert_ne by discriminate. apply cell_insert_eq. }
  split; [rewrite Hdf'; apply int_ids_concat_row; assumption|].
  split; [exact Hlt|]. split; [exact Hone|].
  intros other Hne. unfold st', exec. rewrite Hrun. cbn [snd].
  apply read_sheet_insert_ne. congruence.
Qed.

Lemma add_cost_fresh_id_witness :
  exists n r,
    rows (read_sheet "costs"
            (exec (add_cost {| year := 2025; month := 3; day := 9 |}
                     "Supplies" "soap" 300 "Variable" "") sample_book))
    = [r]
    /\ cell r "expense_id" = VNum (NInt n) /\ n = 1.
Proof.
  destruct sample_book as [| |sheets] eqn:E; try discriminate.
  destruct (add_cost_fresh_id sheets [] {| year := 2025; month := 3; day := 9 |}
              "Supplies" "soap" 300 "Variable" "")
    as (n & r & _ & H1 & H2 & _ & _ & _ & H3 & _).
  { injection E as <-. vm_compute. reflexivity. }
  exists n, r. split; [|auto]. rewrite H1. injection E as <-. reflexivity.
Defined.

(** X7.  "Delete Payment" removes the payment rows of the chosen id and
    nothing else: the other payments stay in their order, and the clients,
    orders and costs are not written (no cascade).  With no payment on file
    it writes nothing at all. *)
Theorem delete_payment_only (st : xlsx) (v : value) :
  let payments := read_sheet "payments" st in
  (df_empty payments = true -> delete_payment v st = (Ok tt, st))
  /\ (df_empty payments = false -> has_column payments "payment_id" = true ->
      let st' := exec (delete_payment v) st in
      read_sheet "payments" st' = without (refers payments "payment_id" v) payments
      /\ (forall r, In r (rows payments) ->
                    value_eqb (cell r "payment_id") v = false ->
                    In r (rows (read_sheet "payments" st')))
      /\ (forall other, other <> "payments"%string ->
                        read_sheet other st' = read_sheet other st)).
Proof.
  intros payments. split.
  - intros He. unfold delete_payment, mbind, M_bind, load_data.
    fold payments. rewrite He. reflexivity.
  - intros He Hc st'.
    destruct (read_sheet_nonempty _ _ He) as [sheets ->].
    pose proof (delete_payment_run sheets v He Hc) as Hrun. cbv zeta in Hrun.
    fold payments in Hrun.
    assert (Hst : st' = snd (delete_payment v (Book sheets))) by reflexivity.
    rewrite Hrun in Hst. cbn [snd] in Hst.
    assert (Hp : read_sheet "payments" st'
                 = without (refers payments "payment_id" v) payments).
    { rewrite Hst. apply read_sheet_insert. }
    split; [exact Hp|]. split.
    + intros r Hr Hne. rewrite Hp. apply without_In. split; [exact Hr|].
      unfold refers. rewrite Hne. apply andb_false_r.
    + intros other Hne. rewrite Hst. apply read_sheet_insert_ne. congruence.
Qed.

Lemma delete_payment_only_witness :
  read_sheet "payments" (exec (delete_payment (VNum (NInt 2))) sample_book)
  = {| columns := payments_columns;
       rows := [payment_row 1 1 2000; payment_row 3 3 1400] |}
  /\ read_sheet "orders" (exec (delete_payment (VNum (NInt 2))) sample_book)
     = sample_orders.
Proof.
  destruct (delete_payment_only sample_book (VNum (NInt 2))) as [_ H].
  destruct H as (H1 & _ & H2); try (vm_compute; reflexivity).
  rewrite H1, (H2 "orders"%string) by discriminate.
  split; vm_compute; reflexivity.
Defined.

(** X8.  Ids are handed out again.  On a payments sheet with integer ids,
    once the payment with the largest id [m >= 1] is deleted, the next id is
    at most [m], never above the id just deleted; and it is [m] itself
    whenever [m - 1] is on file: the next payment gets the id of the one
    that was deleted. *)
Theorem next_id_after_delete (st : xlsx) (ids : list Z) (m : Z) :
  let payments := read_sheet "payments" st in
  int_ids payments "payment_id" ids ->
  In m ids -> Forall (fun i => i <= m) ids -> 1 <= m ->
  let payments' := read_sheet "payments" (exec (delete_payment (VNum (NInt m))) st) in
  exists n, next_id payments' "payment_id" = Ok n /\ n <= m
            /\ (In (m - 1) ids -> n = m).
Proof.
  intros payments Hids Hin Hmax Hm payments'.
  assert (Hc : has_column payments "payment_id" = true).
  { unfold int_ids, getitem in Hids.
    destruct (has_column payments "payment_id"); [reflexivity|discriminate]. }
  assert (He : df_empty payments = false).
  { apply df_empty_false. split; [eapply has_column_nonempty, Hc|].
    pose proof (int_ids_rows _ _ _ Hids) as Hlen. intros Hr. rewrite Hr in Hlen.
    destruct ids; [destruct Hin|discriminate]. }
  destruct (read_sheet_nonempty _ _ He) as [sheets ->].
  assert (Hp : payments' = without (refers payments "payment_id" (VNum (NInt m))) payments).
  { unfold payments', exec. rewrite (delete_payment_run sheets _ He Hc).
    apply read_sheet_insert. }
  pose proof (int_ids_without _ _ _ m Hids) as Hids'. rewrite <- Hp in Hids'.
  destruct (next_id_ints _ _ _ Hids') as (n & Hn & Hlt & Hone & Hlast).
  exists n. split; [exact Hn|].
  assert (Hle : n <= m).
  { destruct (List.filter (fun i => negb (i =? m)) ids) as [|i rest] eqn:Hf.
    - rewrite Hone by reflexivity. exact Hm.
    - assert (Hin' : In (n - 1) (List.filter (fun i => negb (i =? m)) ids)).
      { rewrite Hf. apply Hlast. discriminate. }
      apply List.filter_In in Hin' as [Hin' Hne].
      apply negb_true_iff, Z.eqb_neq in Hne.
      rewrite List.Forall_forall in Hmax. specialize (Hmax _ Hin'). lia. }
  split; [exact Hle|].
  intros Hprev.
  assert (Hin' : In (m - 1) (List.filter (fun i => negb (i =? m)) ids)).
  { apply List.filter_In. split; [exact Hprev|].
    apply negb_true_iff, Z.eqb_neq. lia. }
  rewrite List.Forall_forall in Hlt. specialize (Hlt _ Hin'). lia.
Qed.

Lemma next_id_after_delete_witness :
  exists n,
    next_id (read_sheet "payments" (exec (delete_payment (VNum (NInt 3))) sample_book))
            "payment_id" = Ok n
    /\ n <= 3
    /\ (In (3 - 1) [1; 2; 3] -> n = 3).
Proof.
  apply (next_id_after_delete sample_book [1; 2; 3] 3).
  - vm_compute. reflexivity.
  - simpl. auto.
  - repeat constructor; lia.
  - lia.
Defined.

(** ** Equality of cells *)

Section CellEquality.

(** NaN equals nothing. *)
Lemma value_eqb_nan_r a b : isna b = true -> value_eqb a b = false.
Proof.
  destruct b as [[z|g]|t]; try discriminate. cbn [isna]. intros Hg%is_nan_spec.
  destruct a as [[y|f]|s]; cbn [value_eqb num_eqb]; [| |reflexivity].
  - unfold float_compare_Z. rewrite Hg. reflexivity.
  - rewrite FloatAxioms.eqb_spec, Hg. apply SFeqb_nan_r.
Qed.

(** A float's value is at most one integer. *)
Lemma SFcompareZ_Eq_inj x y z :
  SFcompareZ x y = Some Eq -> SFcompareZ x z = Some Eq -> y = z.
Proof.
  destruct x as [s|s| |s m e]; unfold SFcompareZ; try (destruct s; discriminate);
    try discriminate.
  - intros H1 H2.
    assert ((0 ?= y) = Eq) as E1%Z.compare_eq by congruence.
    assert ((0 ?= z) = Eq) as E2%Z.compare_eq by congruence. congruence.
  - set (v := cond_Zopp s (Z.pos m)). cbv zeta.
    destruct (0 <=? e) eqn:He; intros H1 H2.
    + assert ((v * 2 ^ e ?= y) = Eq) as E1%Z.compare_eq by congruence.
      assert ((v * 2 ^ e ?= z) = Eq) as E2%Z.compare_eq by congruence. congruence.
    + assert ((v ?= y * 2 ^ (- e)) = Eq) as E1%Z.compare_eq by congruence.
      assert ((v ?= z * 2 ^ (- e)) = Eq) as E2%Z.compare_eq by congruence.
      apply Z.leb_gt in He.
      assert (0 < 2 ^ (- e)) by (apply Z.pow_pos_nonneg; lia). nia.
Qed.

(** Floats that are equal compare alike with every integer. *)
Lemma SFeqb_compareZ x y z :
  SFeqb x y = true -> SFcompareZ x z = SFcompareZ y z.
Proof.
  intros H. destruct x as [s|s| |s m e], y as [s'|s'| |s' m' e'];
    try reflexivity; try discriminate H;
    try (destruct s; discriminate H); try (destruct s'; discriminate H).
  - destruct s, s'; try discriminate H; reflexivity.
  - unfold SFeqb, SFcompare in H.
    assert (s = s' /\ e = e' /\ m = m') as (-> & -> & ->); [|reflexivity].
    destruct s, s'; try discriminate H;
      destruct (Z.compare_spec e e'); try discriminate H;
      destruct (Pos.compare_cont Eq m m') eqn:Hm; try discriminate H;
      apply Pos.compare_eq in Hm; auto.
Qed.

(** Equality with an integer passes along equal cells. *)
Lemma value_eqb_trans_int a b z :
  value_eqb a b = true -> value_eqb b (VNum (NInt z)) = true ->
  value_eqb a (VNum (NInt z)) = true.
Proof.
  destruct b as [[y|g]|t]; [| |discriminate];
    destruct a as [[x|f]|s]; cbn [value_eqb num_eqb]; try discriminate.
  - intros ->%Z.eqb_eq. auto.
  - intros H ->%Z.eqb_eq. exact H.
  - unfold float_compare_Z. intros H1 H2.
    destruct (SFcompareZ (Prim2SF g) x) as [[]|] eqn:E1; try discriminate.
    destruct (SFcompareZ (Prim2SF g) z) as [[]|] eqn:E2; try discriminate.
    rewrite (SFcompareZ_Eq_inj _ _ _ E1 E2). apply Z.eqb_refl.
  - unfold float_compare_Z. rewrite FloatAxioms.eqb_spec. intros H1 H2.
    rewrite (SFeqb_compareZ _ _ z H1). exact H2.
Qed.

End CellEquality.

(** ** The sample workbook *)

Section Sample.

Lemma sample_sheets :
  read_sheet "clients" sample_book = sample_clients
  /\ read_sheet "orders" sample_book = sample_orders
  /\ read_sheet "payments" sample_book = sample_payments.
Proof. repeat split; vm_compute; reflexivity. Qed.

Lemma sample_payments_reference :
  references sample_payments "order_id" sample_orders "order_id".
Proof.
  intros r Hr. unfold sample_payments in Hr. cbn [rows In] in Hr.
  unfold sample_orders. cbn [rows In].
  destruct Hr as [<-|[<-|[<-|[]]]].
  - exists (order_row 1 1 "WDF (Wash, Dry, Fold)" "Processing" 5000).
    split; [left; reflexivity|vm_compute; reflexivity].
  - exists (order_row 1 1 "WDF (Wash, Dry, Fold)" "Processing" 5000).
    split; [left; reflexivity|vm_compute; reflexivity].
  - exists (order_row 3 2 "WDI (Wash, Dry, Iron)" "Completed" 1400).
    split; [right; right; left; reflexivity|vm_compute; reflexivity].
Qed.

Lemma sample_orders_reference :
  references sample_orders "client_id" sample_clients "client_id".
Proof.
  intros r Hr. unfold sample_orders in Hr. cbn [rows In] in Hr.
  unfold sample_clients. cbn [rows In].
  destruct Hr as [<-|[<-|[<-|[]]]].
  - exists (client_row 1 "Ama").
    split; [left; reflexivity|vm_compute; reflexivity].
  - exists (client_row 1 "Ama").
    split; [left; reflexivity|vm_compute; reflexivity].
  - exists (client_row 2 "Kofi").
    split; [right; left; reflexivity|vm_compute; reflexivity].
Qed.

End Sample.

(** ** Deletions and the links between the sheets *)

(** X9.  Deleting an order id that no order and no payment carries changes
    no sheet: every sheet reads as before. *)
Theorem delete_order_unknown_id (st : xlsx) (id : Z) :
  (forall r, In r (rows (read_sheet "orders" st)) ->
             value_eqb (cell r "order_id") (VNum (NInt id)) = false) ->
  (forall r, In r (rows (read_sheet "payments" st)) ->
             value_eqb (cell r "order_id") (VNum (NInt id)) = false) ->
  forall sheet, read_sheet sheet (exec (delete_order id) st) = read_sheet sheet st.
Proof.
  intros Ho Hp sheet.
  destruct (negb (df_empty (read_sheet "orders" st))
            && negb (df_empty (read_sheet "clients" st))) eqn:Hg.
  2:{ unfold delete_order, exec, mbind, M_bind, load_data. rewrite Hg. reflexivity. }
  apply andb_true_iff in Hg as [Heo%negb_true_iff Hec%negb_true_iff].
  destruct (read_sheet_nonempty _ _ Heo) as [sheets ->].
  destruct (has_column (read_sheet "orders" (Book sheets)) "order_id") eqn:Hoc.
  - rewrite (delete_order_reads sheets id Heo Hec Hoc sheet).
    repeat case_decide; subst; try reflexivity.
    + apply select_all. intros r Hr. unfold refers. rewrite (Ho r Hr).
      rewrite andb_false_r. reflexivity.
    + apply select_all. intros r Hr. unfold refers. rewrite (Hp r Hr).
      rewrite andb_false_r. reflexivity.
  - unfold delete_order, exec, mbind, M_bind, load_data, lift.
    rewrite Heo, Hec. cbn [negb andb].
    rewrite (where_ne_no_column _ _ _ Hoc). reflexivity.
Qed.

Lemma delete_order_unknown_id_witness :
  read_sheet "payments" (exec (delete_order 8) sample_book) = sample_payments.
Proof.
  destruct sample_sheets as (_ & Ho & Hp).
  rewrite (delete_order_unknown_id sample_book 8); [exact Hp| |].
  - rewrite Ho. unfold sample_orders. cbn [rows In].
    intros r [<-|[<-|[<-|[]]]]; vm_compute; reflexivity.
  - rewrite Hp. unfold sample_payments. cbn [rows In].
    intros r [<-|[<-|[<-|[]]]]; vm_compute; reflexivity.
Defined.

(** X10.  Deleting an order leaves no payment behind without its order:
    when every payment named an order on file before, every payment left
    names an order that is left. *)
Theorem delete_order_keeps_references (st : xlsx) (id : Z) :
  let orders := read_sheet "orders" st in
  let payments := read_sheet "payments" st in
  df_empty orders = false -> df_empty (read_sheet "clients" st) = false ->
  has_column orders "order_id" = true -> has_column payments "order_id" = true ->
  references payments "order_id" orders "order_id" ->
  let st' := exec (delete_order id) st in
  references (read_sheet "payments" st') "order_id"
             (read_sheet "orders" st') "order_id".
Proof.
  intros orders payments Heo Hec Hoc Hpc Href st'.
  destruct (read_sheet_nonempty _ _ Heo) as [sheets ->].
  pose proof (delete_order_reads sheets id Heo Hec Hoc) as H. cbv zeta in H.
  fold orders payments st' in H.
  assert (H1 := H "orders"%string). assert (H2 := H "payments"%string). clear H.
  repeat case_decide; try congruence.
  rewrite H1, H2. intros r Hr.
  apply without_In in Hr as [Hr Hne]. unfold refers in Hne. rewrite Hpc in Hne.
  destruct (Href r Hr) as (p & Hp & Heq).
  exists p. split; [|exact Heq].
  apply without_In. split; [exact Hp|]. unfold refers. rewrite Hoc. cbn [andb].
  destruct (value_eqb (cell p "order_id") (VNum (NInt id))) eqn:Hpid; [|reflexivity].
  rewrite (value_eqb_trans_int _ _ _ Heq Hpid) in Hne. discriminate.
Qed.

(** X11.  Deleting a client keeps the links whole as well: when the client's
    id is an integer, every order left names a client that is left, and
    every payment left names an order that is left, provided they did
    before. *)
Theorem delete_client_keeps_references (st : xlsx) (name : value) (cid : Z) :
  let clients := read_sheet "clients" st in
  let orders := read_sheet "orders" st in
  let payments := read_sheet "payments" st in
  lookup_client_id clients name = Ok (VNum (NInt cid)) ->
  has_column orders "client_id" = true -> has_column orders "order_id" = true ->
  has_column payments "order_id" = true ->
  let st' := exec (delete_client name) st in
  (references orders "client_id" clients "client_id" ->
   references (read_sheet "orders" st') "client_id"
              (read_sheet "clients" st') "client_id")
  /\ (references payments "order_id" orders "order_id" ->
      references (read_sheet "payments" st') "order_id"
                 (read_sheet "orders" st') "order_id").
Proof.
  intros clients orders payments Hl Hocc Hoc Hpc st'.
  destruct (lookup_client_id_ok _ _ _ Hl) as [Hc He].
  destruct (read_sheet_nonempty _ _ He) as [sheets ->].
  pose proof (delete_client_reads sheets name _ Hl) as H. cbv zeta in H.
  fold clients orders payments st' in H.
  assert (H1 := H "clients"%string). assert (H2 := H "orders"%string).
  assert (H3 := H "payments"%string). clear H.
  repeat case_decide; try congruence.
  rewrite H1, H2, H3. split; intros Href r Hr.
  - apply without_In in Hr as [Hr Hne]. unfold refers in Hne. rewrite Hocc in Hne.
    destruct (Href r Hr) as (p & Hp & Heq).
    exists p. split; [|exact Heq].
    apply without_In. split; [exact Hp|]. unfold refers. rewrite Hc. cbn [andb].
    destruct (value_eqb (cell p "client_id") (VNum (NInt cid))) eqn:Hpid;
      [|reflexivity].
    rewrite (value_eqb_trans_int _ _ _ Heq Hpid) in Hne. discriminate.
  - apply without_In in Hr as [Hr Hne]. unfold refers_any in Hne.
    rewrite Hpc in Hne. cbn [andb] in Hne.
    destruct (Href r Hr) as (p & Hp & Heq).
    exists p. split; [|exact Heq].
    apply without_In. split; [exact Hp|].
    destruct (refers orders "client_id" (VNum (NInt cid)) p) eqn:Hrem; [|reflexivity].
    exfalso. apply not_true_iff_false in Hne. apply Hne.
    unfold isin. apply existsb_exists. exists (cell p "order_id").
    split; [|rewrite Heq; reflexivity].
    unfold column_values, getitem.
    change (has_column (select _ orders) "order_id") with (has_column orders "order_id").
    rewrite Hoc. apply (in_map (fun q => cell q "order_id")).
    apply select_In. auto.
Qed.

Lemma delete_client_keeps_references_witness :
  references (read_sheet "payments" (exec (delete_client (VStr "Ama")) sample_book))
             "order_id"
             (read_sheet "orders" (exec (delete_client (VStr "Ama")) sample_book))
             "order_id".
Proof.
  destruct sample_sheets as (Hc & Ho & Hp).
  assert (Hl : lookup_client_id (read_sheet "clients" sample_book) (VStr "Ama")
               = Ok (VNum (NInt 1))) by (vm_compute; reflexivity).
  assert (H1 : has_column (read_sheet "orders" sample_book) "client_id" = true)
    by (vm_compute; reflexivity).
  assert (H2 : has_column (read_sheet "orders" sample_book) "order_id" = true)
    by (vm_compute; reflexivity).
  assert (H3 : has_column (read_sheet "payments" sample_book) "order_id" = true)
    by (vm_compute; reflexivity).
  destruct (delete_client_keeps_references sample_book (VStr "Ama") 1 Hl H1 H2 H3)
    as [_ H].
  apply H. rewrite Ho, Hp. exact sample_payments_reference.
Defined.

Lemma delete_order_keeps_references_witness :
  references (read_sheet "payments" (exec (delete_order 1) sample_book)) "order_id"
             (read_sheet "orders" (exec (delete_order 1) sample_book)) "order_id".
Proof.
  destruct sample_sheets as (Hc & Ho & Hp).
  assert (H1 : df_empty (read_sheet "orders" sample_book) = false)
    by (vm_compute; reflexivity).
  assert (H2 : df_empty (read_sheet "clients" sample_book) = false)
    by (vm_compute; reflexivity).
  assert (H3 : has_column (read_sheet "orders" sample_book) "order_id" = true)
    by (vm_compute; reflexivity).
  assert (H4 : has_column (read_sheet "payments" sample_book) "order_id" = true)
    by (vm_compute; reflexivity).
  apply (delete_order_keeps_references sample_book 1 H1 H2 H3 H4).
  rewrite Ho, Hp. exact sample_payments_reference.
Defined.

(** X12.  The client to delete is found by name.  When no client row
    carries the chosen name, the handler raises [IndexError] and writes
    nothing; that is so for every client whose name cell is blank, since NaN
    equals no name. *)
Theorem delete_client_unknown_name (st : xlsx) (name : value) :
  let clients := read_sheet "clients" st in
  df_empty clients = false ->
  has_column clients "full_name" = true -> has_column clients "client_id" = true ->
  ((forall r, In r (rows clients) -> value_eqb (cell r "full_name") name = false) ->
   delete_client name st = (Raise IndexError, st))
  /\ (isna name = true -> delete_client name st = (Raise IndexError, st)).
Proof.
  intros clients He Hn Hc.
  assert (Hmain : (forall r, In r (rows clients) ->
                             value_eqb (cell r "full_name") name = false) ->
                  delete_client name st = (Raise IndexError, st)).
  { intros Hno. unfold delete_client, mbind, M_bind, load_data, lift.
    fold clients. rewrite He. cbn [negb].
    unfold lookup_client_id, mbind, result_bind, where_eq. rewrite Hn.
    unfold getitem.
    change (has_column (select _ clients) "client_id")
      with (has_column clients "client_id").
    rewrite Hc. unfold select. cbn [rows].
    assert (List.filter (fun r => value_eqb (cell r "full_name") name) (rows clients)
            = []) as ->; [|reflexivity].
    induction (rows clients) as [|r rs IH]; [reflexivity|]. cbn [List.filter].
    rewrite (Hno r) by (left; reflexivity). apply IH.
    intros q Hq. apply Hno. right. exact Hq. }
  split; [exact Hmain|].
  intros Hna. apply Hmain. intros r _. apply value_eqb_nan_r, Hna.
Qed.

Lemma delete_client_unknown_name_witness :
  delete_client NaN sample_book = (Raise IndexError, sample_book).
Proof.
  apply (delete_client_unknown_name sample_book NaN); vm_compute; reflexivity.
Defined.

(** X13.  Of several clients with one name, the first on the sheet is the
    one deleted: the id looked up is that of the first row carrying the
    name, whichever of them was meant. *)
Theorem lookup_client_id_first (df : DataFrame) (name : value)
    (before after : list row) (r : row) :
  has_column df "full_name" = true -> has_column df "client_id" = true ->
  rows df = before ++ r :: after ->
  (forall q, In q before -> value_eqb (cell q "full_name") name = false) ->
  value_eqb (cell r "full_name") name = true ->
  lookup_client_id df name = Ok (cell r "client_id").
Proof.
  intros Hn Hc Hrows Hbefore Hr.
  unfold lookup_client_id, mbind, result_bind, where_eq. rewrite Hn.
  unfold getitem.
  change (has_column (select _ df) "client_id") with (has_column df "client_id").
  rewrite Hc. unfold select. cbn [rows]. rewrite Hrows.
  rewrite List.filter_app.
  assert (List.filter (fun r0 => value_eqb (cell r0 "full_name") name) before = [])
    as ->.
  { clear Hrows. induction before as [|q qs IH]; [reflexivity|]. cbn [List.filter].
    rewrite (Hbefore q) by (left; reflexivity). apply IH.
    intros q' Hq'. apply Hbefore. right. exact Hq'. }
  cbn [List.filter app]. rewrite Hr. reflexivity.
Qed.

Lemma lookup_client_id_first_witness :
  lookup_client_id {| columns := clients_columns;
                      rows := [client_row 1 "Kofi"; client_row 2 "Ama";
                               client_row 3 "Ama"] |} (VStr "Ama")
  = Ok (cell (client_row 2 "Ama") "client_id").
Proof.
  apply (lookup_client_id_first _ (VStr "Ama") [client_row 1 "Kofi"] [client_row 3 "Ama"]
           (client_row 2 "Ama")).
  - vm_compute. reflexivity.
  - vm_compute. reflexivity.
  - reflexivity.
  - intros q [<-|[]]. vm_compute. reflexivity.
  - vm_compute. reflexivity.
Defined.

(** ** The overview's counts and the calendar's month *)

Section Counts.

Lemma filter_partition_length {A} (p : A -> bool) (l : list A) :
  (length (List.filter (fun x => negb (p x)) l) + length (List.filter p l)
   = length l)%nat.
Proof.
  induction l as [|x l IH]; [reflexivity|]. cbn [List.filter].
  destruct (p x); cbn [negb length]; lia.
Qed.

End Counts.

(** X14.  The overview's two counts split the orders: with a status column,
    pending and completed orders add up to the number of orders, an order
    with a blank status counting as pending.  An empty frame gives 0 and 0;
    a frame with rows and no status column raises [KeyError]. *)
Theorem order_counts_partition (orders : DataFrame) :
  (df_empty orders = true ->
   pending_orders orders = Ok 0%nat /\ completed_orders orders = Ok 0%nat)
  /\ (df_empty orders = false -> has_column orders "status" = true ->
      exists p c,
        pending_orders orders = Ok p /\ completed_orders orders = Ok c
        /\ (p + c = length (rows orders))%nat
        /\ c = length (List.filter (fun r => value_eqb (cell r "status")
                                               (VStr "Completed")) (rows orders)))
  /\ (df_empty orders = false -> has_column orders "status" = false ->
      pending_orders orders = Raise KeyError
      /\ completed_orders orders = Raise KeyError).
Proof.
  unfold pending_orders, completed_orders, mbind, result_bind, where_ne, where_eq.
  split; [|split].
  - intros ->. split; reflexivity.
  - intros -> ->. cbn [negb]. eexists. eexists.
    split; [reflexivity|]. split; [reflexivity|]. split; [|reflexivity].
    unfold select. cbn [rows]. apply filter_partition_length.
  - intros -> ->. split; reflexivity.
Qed.

Lemma order_counts_partition_witness :
  pending_orders sample_orders = Ok 2%nat /\ completed_orders sample_orders = Ok 1%nat.
Proof.
  destruct (order_counts_partition sample_orders) as (_ & H & _).
  destruct H as (p & c & Hp & Hc & Hsum & Hcount); try (vm_compute; reflexivity).
  assert (c = 1%nat) as -> by (rewrite Hcount; vm_compute; reflexivity).
  assert (p = 2%nat) as -> by (simpl in Hsum; lia).
  auto.
Defined.

Section Month.

Lemma navigate_step y m b f :
  1 <= m <= 12 ->
  let s' := snd (navigate b f {| cal_year := y; cal_month := m |}) in
  1 <= cal_month s' <= 12
  /\ 12 * cal_year s' + cal_month s'
     = 12 * y + m + (if f then 1 else 0) - (if b then 1 else 0).
Proof.
  intros Hm. unfold navigate. cbn [cal_month cal_year snd].
  destruct b, f.
  all: repeat match goal with
         | |- context [?a <? ?b] =>
             destruct (Z.ltb_spec a b); cbn [cal_month cal_year]
         end.
  all: cbn [cal_month cal_year] in *; lia.
Qed.

Lemma navigate_undo y m b f :
  1 <= m <= 12 ->
  snd (navigate (negb b) (negb f)
         (snd (navigate b f {| cal_year := y; cal_month := m |})))
  = {| cal_year := y; cal_month := m |}.
Proof.
  intros Hm. unfold navigate. cbn [cal_month cal_year snd].
  destruct b, f; cbn [negb].
  all: repeat match goal with
         | |- context [?a <? ?b] =>
             destruct (Z.ltb_spec a b); cbn [cal_month cal_year] in *
         end.
  all: cbn [cal_month cal_year] in *; try lia; f_equal; lia.
Qed.

End Month.

(** X15.  The calendar's month stays a month.  From a month between 1 and
    12, a run of the page leaves the month between 1 and 12 and moves the
    count of months, [12 * year + month], by one down for the back button
    and one up for the forward button; back and forward undo each other.
    The header is drawn between the two buttons: after forward it still
    names the month that was left, and after back from January it is drawn
    for month 0, before the wrap to December. *)
Theorem navigate_spec (s : cal_state) (back forward : bool) :
  1 <= cal_month s <= 12 ->
  let s' := snd (navigate back forward s) in
  1 <= cal_month s' <= 12
  /\ 12 * cal_year s' + cal_month s'
     = 12 * cal_year s + cal_month s
       + (if forward then 1 else 0) - (if back then 1 else 0)
  /\ snd (navigate false true (snd (navigate true false s))) = s
  /\ snd (navigate true false (snd (navigate false true s))) = s
  /\ fst (navigate false true s) = cal_month s
  /\ (cal_month s = 1 -> fst (navigate true false s) = 0
                         /\ cal_month (snd (navigate true false s)) = 12
                         /\ cal_year (snd (navigate true false s)) = cal_year s - 1).
Proof.
  intros Hm. destruct s as [y m]. cbn [cal_month cal_year] in *.
  split; [apply navigate_step, Hm|]. split; [apply navigate_step, Hm|].
  split; [apply (navigate_undo y m true false Hm)|].
  split; [apply (navigate_undo y m false true Hm)|].
  split; [reflexivity|].
  intros ->. repeat split; reflexivity.
Qed.

Lemma navigate_spec_witness :
  snd (navigate false true {| cal_year := 2025; cal_month := 12 |})
  = {| cal_year := 2026; cal_month := 1 |}
  /\ 1 <= cal_month (snd (navigate true false {| cal_year := 2025; cal_month := 1 |}))
     <= 12.
Proof.
  split; [reflexivity|].
  apply (navigate_spec {| cal_year := 2025; cal_month := 1 |} true false). simpl. lia.
Defined.

(** ** Fees, dates and new orders *)

Section FeeSign.

Lemma nonneg_leb_0 f : sf_nonneg (Prim2SF f) = true -> (0 <=? f)%float = true.
Proof.
  rewrite leb_spec. change (Prim2SF 0) with (S754_zero false).
  destruct (Prim2SF f) as [s|s| |s m e]; try destruct s; cbv; congruence.
Qed.

Lemma fee_float_nonneg s (w d : float) :
  (0 <=? w)%float = true -> (0 <=? d)%float = true ->
  num_nonneg (calculate_fee s (Some (NFloat w)) (Some (NFloat d))) = true.
Proof.
  intros Hw Hd. apply leb_0_nonneg in Hw, Hd.
  destruct (Z2F_rate s) as (m & e & HR).
  pose proof (SFmul_nonneg m e _ Hw) as HX.
  assert (H0 : sf_nonneg (Prim2SF (Z2F 0)) = true) by reflexivity.
  unfold calculate_fee, or0, truthy.
  destruct (w =? 0)%float, (d =? 0)%float; cbn [negb num_mul num_add num_nonneg].
  - rewrite Z.mul_0_r. reflexivity.
  - rewrite Z.mul_0_r. apply nonneg_leb_0. rewrite add_spec.
    apply SFadd_nonneg; assumption.
  - apply nonneg_leb_0. rewrite add_spec, mul_spec, HR.
    apply SFadd_nonneg; assumption.
  - apply nonneg_leb_0. rewrite add_spec, mul_spec, HR.
    apply SFadd_nonneg; assumption.
Qed.

End FeeSign.

(** X16.  A fee is never negative: for a weight and a delivery fee that are
    floats not below zero (the form's inputs) the fee is a number [>= 0], in
    particular not NaN, and for integers not below zero it is an integer
    [>= 0]. *)
Theorem calculate_fee_nonneg (service : string) :
  (forall w d : float,
     (0 <=? w)%float = true -> (0 <=? d)%float = true ->
     num_nonneg (calculate_fee service (Some (NFloat w)) (Some (NFloat d))) = true)
  /\ (forall w d : Z,
        0 <= w -> 0 <= d ->
        exists fee, calculate_fee service (Some (NInt w)) (Some (NInt d)) = NInt fee
                    /\ 0 <= fee
                    /\ d <= fee).
Proof.
  split; [apply fee_float_nonneg|].
  intros w d Hw Hd. rewrite fee_int. eexists. split; [reflexivity|].
  destruct (rate_of_cases service) as [->|[->|[->| ->]]]; lia.
Qed.

Lemma calculate_fee_nonneg_witness :
  num_nonneg (calculate_fee "Iron Only" (Some (NFloat 0)) (Some (NFloat 150))) = true.
Proof. apply calculate_fee_nonneg; reflexivity. Defined.

Section SqlDate.

Lemma digit_inj a b : digit a = digit b -> a mod 10 = b mod 10.
Proof.
  unfold digit. intros H.
  pose proof (Z.mod_pos_bound a 10 ltac:(lia)) as Ha.
  pose proof (Z.mod_pos_bound b 10 ltac:(lia)) as Hb.
  apply (f_equal Ascii.nat_of_ascii) in H.
  rewrite !Ascii.nat_ascii_embedding in H by lia. lia.
Qed.

Lemma pad2_inj a b : 0 <= a < 100 -> 0 <= b < 100 -> pad2 a = pad2 b -> a = b.
Proof.
  unfold pad2. intros Ha Hb [= H1%digit_inj H2%digit_inj].
  revert H1 H2. Z.div_mod_to_equations. lia.
Qed.

Lemma string_length_append (s t : string) :
  String.length (s ++ t)%string = (String.length s + String.length t)%nat.
Proof.
  induction s as [|c s IH]; [reflexivity|].
  simpl. rewrite IH. reflexivity.
Qed.

(** Two texts that begin with parts of one length agree part by part. *)
Lemma string_append_inj (s1 : string) : forall s2 t1 t2,
  String.length s1 = String.length s2 ->
  (s1 ++ t1)%string = (s2 ++ t2)%string -> s1 = s2 /\ t1 = t2.
Proof.
  induction s1 as [|c s1 IH]; intros [|d s2] t1 t2 Hlen H; cbn in *;
    try discriminate; [auto|].
  injection H as -> H. injection Hlen as Hlen.
  destruct (IH _ _ _ Hlen H) as [-> ->]. auto.
Qed.

(** A year of four digits is written with four characters. *)
Lemma pretty_year y :
  1000 <= y <= 9999 ->
  exists c3 c2 c1 c0,
    pretty y = String c3 (String c2 (String c1 (String c0 EmptyString))).
Proof.
  intros Hy. destruct y as [|p|p]; try lia.
  change (pretty (Z.pos p)) with (pretty (N.pos p)).
  unfold pretty, pretty_N.
  destruct (decide (N.pos p = 0%N)) as [E|_]; [discriminate|].
  assert (H1 : (1000 <= N.pos p < 10000)%N) by lia.
  rewrite pretty_N_go_step by lia.
  assert (H2 : (100 <= N.pos p / 10 < 1000)%N).
  { split; [apply N.div_le_lower_bound|apply N.Div0.div_lt_upper_bound]; lia. }
  rewrite pretty_N_go_step by lia.
  assert (H3 : (10 <= N.pos p / 10 / 10 < 100)%N).
  { split; [apply N.div_le_lower_bound|apply N.Div0.div_lt_upper_bound]; lia. }
  rewrite pretty_N_go_step by lia.
  assert (H4 : (1 <= N.pos p / 10 / 10 / 10 < 10)%N).
  { split; [apply N.div_le_lower_bound|apply N.Div0.div_lt_upper_bound]; lia. }
  rewrite pretty_N_go_step by lia.
  rewrite N.div_small by lia. rewrite pretty_N_go_0. eauto.
Qed.

End SqlDate.

(** X17.  [sql_date] writes year, month and day with dashes between: ten
    characters for a year of four digits, with the dashes fifth and eighth.
    Different dates are written differently, so the text stored with an
    order or a cost determines the date that was entered. *)
Theorem sql_date_injective (a b : date) :
  date_fields a -> date_fields b ->
  (1000 <= year a ->
   String.length (sql_date a) = 10%nat
   /\ String.substring 4 1 (sql_date a) = "-"%string
   /\ String.substring 7 1 (sql_date a) = "-"%string)
  /\ (sql_date a = sql_date b -> a = b).
Proof.
  intros (Hya & Hma & Hda) (Hyb & Hmb & Hdb). split.
  - intros H1000. destruct (pretty_year (year a)) as (c3 & c2 & c1 & c0 & E); [lia|].
    unfold sql_date, pad2. rewrite E. repeat split; reflexivity.
  - intros H. destruct a as [ya ma da], b as [yb mb db]. cbn [year month day] in *.
    unfold sql_date in H. cbn [year month day] in H.
    assert (Hlen : String.length (pretty ya) = String.length (pretty yb)).
    { apply (f_equal String.length) in H.
      rewrite !string_length_append in H. cbn [String.length pad2] in H. lia. }
    destruct (string_append_inj _ _ _ _ Hlen H) as [Hy Hrest].
    apply (inj pretty) in Hy. unfold pad2 in Hrest.
    injection Hrest as H1 H2 H3 H4.
    assert (Hm : pad2 ma = pad2 mb) by (unfold pad2; congruence).
    assert (Hd : pad2 da = pad2 db) by (unfold pad2; congruence).
    apply pad2_inj in Hm; [|lia..]. apply pad2_inj in Hd; [|lia..]. congruence.
Qed.

Lemma sql_date_injective_witness :
  sql_date {| year := 2025; month := 3; day := 9 |} = "2025-03-09"%string
  /\ String.length (sql_date {| year := 2025; month := 3; day := 9 |}) = 10%nat
  /\ sql_date {| year := 2025; month := 3; day := 9 |}
     <> sql_date {| year := 2025; month := 9; day := 3 |}.
Proof.
  assert (Ha : date_fields {| year := 2025; month := 3; day := 9 |})
    by (unfold date_fields; simpl; lia).
  assert (Hb : date_fields {| year := 2025; month := 9; day := 3 |})
    by (unfold date_fields; simpl; lia).
  destruct (sql_date_injective _ _ Ha Hb) as (Hlen & Hinj).
  split; [reflexivity|]. split.
  - apply Hlen. simpl. lia.
  - intros H. apply Hinj in H. discriminate.
Defined.

(** ** Adding an order *)

Section AddOrder.

Implicit Types (df : DataFrame) (sheets : gmap string DataFrame).

Lemma filter_head {A} (p : A -> bool) (l : list A) x rest :
  List.filter p l = x :: rest -> In x l /\ p x = true.
Proof.
  intros H. apply List.filter_In. rewrite H. left. reflexivity.
Qed.

Lemma filter_nonempty {A} (p : A -> bool) (l : list A) x :
  In x l -> p x = true -> List.filter p l <> [].
Proof.
  intros Hin Hp Hnil.
  assert (In x (List.filter p l)) as Hx by (apply List.filter_In; auto).
  rewrite Hnil in Hx. destruct Hx.
Qed.

(** Each row of a column of integers holds one of them. *)
Lemma int_ids_cell df col ids r :
  int_ids df col ids -> In r (rows df) ->
  exists z, cell r col = VNum (NInt z) /\ In z ids.
Proof.
  unfold int_ids, getitem. destruct (has_column df col); [|discriminate].
  intros [= H] Hr.
  apply (in_map (fun q => cell q col)) in Hr. rewrite H in Hr.
  apply in_map_iff in Hr as (z & Hz & Hin). eauto.
Qed.

End AddOrder.

(** X18.  "Add Order" links the new order to a client on file and gives it
    an unused id.  With integer client and order ids and a client row that
    carries the chosen name, the run appends one row to the orders sheet:
    its order id is above every order id there, its client id is that of a
    client row of that name, its total fee is [calculate_fee] of the
    service, weight and delivery fee entered; the rows that were there and
    the other sheets are kept.  With no client on file nothing is
    written. *)
Theorem add_order_links (st : xlsx) (client : value) (service : string)
    (weight : float) (pickup due : date) (delivery : float) (status note : string) :
  let clients := read_sheet "clients" st in
  let orders := read_sheet "orders" st in
  let run := add_order client service weight pickup due delivery status note in
  (df_empty clients = true -> run st = (Ok tt, st))
  /\ (forall cids oids,
        int_ids clients "client_id" cids -> int_ids orders "order_id" oids ->
        has_column clients "full_name" = true ->
        (exists c, In c (rows clients)
                   /\ value_eqb (cell c "full_name") client = true) ->
        exists n c o,
          fst (run st) = Ok tt
          /\ rows (read_sheet "orders" (exec run st)) = rows orders ++ [o]
          /\ cell o "order_id" = VNum (NInt n)
          /\ Forall (fun i => i < n) oids
          /\ In c (rows clients)
          /\ value_eqb (cell c "full_name") client = true
          /\ cell o "client_id" = cell c "client_id"
          /\ cell o "total_fee"
             = VNum (calculate_fee service (Some (NFloat weight)) (Some (NFloat delivery)))
          /\ cell o "due_date" = VStr (sql_date due)
          /\ (forall other, other <> "orders"%string ->
                            read_sheet other (exec run st) = read_sheet other st)).
Proof.
  intros clients orders run. split.
  { intros He. unfold run, add_order, mbind, M_bind, load_data.
    fold clients. rewrite He. reflexivity. }
  intros cids oids Hcids Hoids Hn (c0 & Hc0 & Hname).
  assert (Hc : has_column clients "client_id" = true).
  { unfold int_ids, getitem in Hcids.
    destruct (has_column clients "client_id"); [reflexivity|discriminate]. }
  assert (He : df_empty clients = false).
  { apply df_empty_false. split; [eapply has_column_nonempty, Hc|].
    intros Hr. rewrite Hr in Hc0. destruct Hc0. }
  destruct (read_sheet_nonempty _ _ He) as [sheets ->].
  destruct (List.filter (fun r => value_eqb (cell r "full_name") client) (rows clients))
    as [|c rest] eqn:Hf.
  { exfalso. eapply filter_nonempty; [exact Hc0| |exact Hf]. exact Hname. }
  destruct (filter_head _ _ _ _ Hf) as [Hcin Hcname].
  destruct (int_ids_cell _ _ _ _ Hcids Hcin) as (cid & Hcid & _).
  destruct (next_id_ints _ _ _ Hoids) as (n & Hnext & Hlt & _).
  set (total := calculate_fee service (Some (NFloat weight)) (Some (NFloat delivery))).
  set (new_row := [("order_id"%string, VNum (NInt n));
                   ("client_id"%string, VNum (NInt cid));
                   ("service_type"%string, VStr service);
                   ("weight_count"%string, VNum (NFloat weight));
                   ("pickup_date"%string, VStr (sql_date pickup));
                   ("due_date"%string, VStr (sql_date due));
                   ("status"%string, VStr status);
                   ("special_instructions"%string, VStr note);
                   ("delivery_fee"%string, VNum (NFloat delivery));
                   ("total_fee"%string, VNum total)]).
  assert (Hrun : run (Book sheets)
                 = (Ok tt, Book (<["orders"%string := concat_row orders new_row]> sheets))).
  { unfold run, add_order, mbind, M_bind, load_data, lift.
    fold clients orders. rewrite He.
    unfold loc_eq. rewrite Hn, Hc, Hf. cbn [map values0]. rewrite Hcid.
    cbn [int_of_value py_int]. rewrite Hnext. reflexivity. }
  exists n, c, (list_to_map new_row).
  split; [rewrite Hrun; reflexivity|].
  split; [unfold exec; rewrite Hrun; cbn [snd]; rewrite read_sheet_insert; reflexivity|].
  split; [apply cell_insert_eq|]. split; [exact Hlt|].
  split; [exact Hcin|]. split; [exact Hcname|].
  split.
  { rewrite Hcid. unfold new_row. cbn [list_to_map foldr uncurry].
    rewrite cell_insert_ne by discriminate. apply cell_insert_eq. }
  split.
  { unfold new_row. cbn [list_to_map foldr uncurry].
    rewrite !cell_insert_ne by discriminate. apply cell_insert_eq. }
  split.
  { unfold new_row. cbn [list_to_map foldr uncurry].
    rewrite !cell_insert_ne by discriminate. apply cell_insert_eq. }
  intros other Hne. unfold exec. rewrite Hrun. cbn [snd].
  apply read_sheet_insert_ne. congruence.
Qed.

Lemma add_order_links_witness :
  exists n c o,
    rows (read_sheet "orders"
            (exec (add_order (VStr "Kofi") "Bedding" 2 {| year := 2025; month := 3; day := 9 |}
                     {| year := 2025; month := 3; day := 11 |} 0 "Ready" "")
                  sample_book))
    = rows sample_orders ++ [o]
    /\ cell o "order_id" = VNum (NInt n)
    /\ Forall (fun i => i < n) [1; 2; 3]
    /\ In c (rows sample_clients)
    /\ cell o "client_id" = cell c "client_id"
    /\ cell o "total_fee" = VNum (NFloat 2400).
Proof.
  destruct sample_sheets as (Hc & Ho & _).
  destruct (add_order_links sample_book (VStr "Kofi") "Bedding" 2
              {| year := 2025; month := 3; day := 9 |}
              {| year := 2025; month := 3; day := 11 |} 0 "Ready" "") as [_ H].
  destruct (H [1; 2] [1; 2; 3]) as (n & c & o & _ & H1 & H2 & H3 & H4 & _ & H5 & H6 & _).
  - vm_compute. reflexivity.
  - vm_compute. reflexivity.
  - vm_compute. reflexivity.
  - exists (client_row 2 "Kofi"). rewrite Hc. unfold sample_clients. cbn [rows In].
    split; [right; left; reflexivity|vm_compute; reflexivity].
  - exists n, c, o. rewrite Ho in H1. rewrite Hc in H4.
    split; [exact H1|]. split; [exact H2|]. split; [exact H3|].
    split; [exact H4|]. split; [exact H5|].
    rewrite H6. vm_compute. reflexivity.
Defined.

(** ** Deleting by name *)

(** X20.  Deleting by name cascades two levels from the client the handler
    finds.  It looks up the id of the first client row of the chosen name;
    afterwards the clients sheet is the old one without the rows of that id,
    the orders sheet the old one without the orders of that id, the
    payments sheet the old one without the payments of those orders, every
    other row is where it was, and the costs are untouched.  For an id that
    equals itself (any id but NaN) no client row of that id is left. *)
Theorem delete_client_cascade (st : xlsx) (name cid : value) :
  let clients := read_sheet "clients" st in
  let orders := read_sheet "orders" st in
  let payments := read_sheet "payments" st in
  let removed := select (refers orders "client_id" cid) orders in
  lookup_client_id clients name = Ok cid ->
  let st' := exec (delete_client name) st in
  read_sheet "clients" st' = without (refers clients "client_id" cid) clients
  /\ read_sheet "orders" st' = without (refers orders "client_id" cid) orders
  /\ read_sheet "payments" st'
     = without (refers_any payments "order_id" (column_values removed "order_id"))
         payments
  /\ read_sheet "costs" st' = read_sheet "costs" st
  /\ (value_eqb cid cid = true ->
      forall r, In r (rows (read_sheet "clients" st')) ->
                value_eqb (cell r "client_id") cid = false).
Proof.
  intros clients orders payments removed Hl st'.
  destruct (lookup_client_id_ok _ _ _ Hl) as [Hc He].
  destruct (read_sheet_nonempty _ _ He) as [sheets ->].
  pose proof (delete_client_reads sheets name cid Hl) as H. cbv zeta in H.
  fold clients orders payments removed st' in H.
  assert (H1 := H "clients"%string). assert (H2 := H "orders"%string).
  assert (H3 := H "payments"%string). assert (H4 := H "costs"%string).
  clear H. repeat case_decide; try congruence.
  repeat split; auto.
  intros _ r Hr. rewrite H1 in Hr. apply without_In in Hr as [_ Hr].
  unfold refers in Hr. rewrite Hc in Hr. exact Hr.
Qed.

Lemma delete_client_cascade_witness :
  lookup_client_id sample_clients (VStr "Ama") = Ok (VNum (NInt 1))
  /\ read_sheet "clients" (exec (delete_client (VStr "Ama")) sample_book)
     = {| columns := clients_columns; rows := [client_row 2 "Kofi"] |}
  /\ read_sheet "orders" (exec (delete_client (VStr "Ama")) sample_book)
     = {| columns := orders_columns;
          rows := [order_row 3 2 "WDI (Wash, Dry, Iron)" "Completed" 1400] |}
  /\ read_sheet "payments" (exec (delete_client (VStr "Ama")) sample_book)
     = {| columns := payments_columns; rows := [payment_row 3 3 1400] |}.
Proof.
  assert (Hl : lookup_client_id (read_sheet "clients" sample_book) (VStr "Ama")
               = Ok (VNum (NInt 1))) by (vm_compute; reflexivity).
  destruct (delete_client_cascade sample_book (VStr "Ama") (VNum (NInt 1)) Hl)
    as (H1 & H2 & H3 & _).
  split; [exact Hl|]. rewrite H1, H2, H3.
  repeat split; vm_compute; reflexivity.
Defined.

